(** * zoneminder-events-motion-mqtt-gifs: a shallow embedding

    The handler of [zoneminder_events_motion_mqtt_gifs.py] listens on an MQTT
    broker for ZoneMinder motion events, copies the recorded clip of the
    event into a working folder, asks [ffmpeg] for an animated preview and
    publishes the name of the preview on a second topic.

    The embedding keeps the program's shape.  Python [str] values are Rocq
    strings holding UTF-8 text, [bytes] are lists of bytes, integers are [Z].
    Everything the program does to the outside (logging, the file system,
    the [ffmpeg] child process, the broker client) goes through a small
    state-and-exception monad over a [World]; every such operation leaves an
    event in the world's trace, so that the order of effects can be read
    back.  What the outside answers (the exit status of [ffmpeg], whether a
    call of the broker client raises) is given by an [Externals] record. *)

From Stdlib Require Import ZArith NArith Strings.Ascii Strings.String Strings.Byte.
From stdpp Require Import base option list strings pretty gmap.

Open Scope Z_scope.

(** ** Python string helpers *)

Module Py.

(** [str.zfill(width)]: zeros are inserted after a leading sign. *)
Fixpoint zeros (n : nat) : string :=
  match n with
  | O => EmptyString
  | S k => String "0"%char (zeros k)
  end.

Definition is_sign (c : ascii) : bool :=
  bool_decide (c = "+"%char) || bool_decide (c = "-"%char).

Definition zfill (width : nat) (s : string) : string :=
  let fill := (width - String.length s)%nat in
  match fill with
  | O => s
  | S _ =>
      match s with
      | String c rest =>
          if is_sign c then String c (zeros fill +:+ rest) else zeros fill +:+ s
      | EmptyString => zeros fill
      end
  end.

(** ['{}'.format(n)] for an [int]. *)
Definition str_of_int (n : Z) : string := pretty n.

(** [s.replace(old, new)]: every non-overlapping occurrence of [old], found
    from the left, is replaced.  [skip] counts the characters of the current
    occurrence still to be dropped. *)
Fixpoint replace_go (old new : string) (skip : nat) (s : string) : string :=
  match s with
  | EmptyString => EmptyString
  | String c s' =>
      match skip with
      | S k => replace_go old new k s'
      | O =>
          if String.prefix old s
          then new +:+ replace_go old new (String.length old - 1) s'
          else String c (replace_go old new 0 s')
      end
  end.

Fixpoint replace_empty (new s : string) : string :=
  match s with
  | EmptyString => new
  | String c s' => new +:+ String c (replace_empty new s')
  end.

Definition replace (old new s : string) : string :=
  match old with
  | EmptyString => replace_empty new s
  | String _ _ => replace_go old new 0 s
  end.

(** [bytes.decode("utf-8")] in strict mode: the well-formed byte sequences
    of the Unicode standard (no overlong forms, no surrogates, nothing
    above U+10FFFF). *)
Definition between (lo hi : N) (b : byte) : bool :=
  ((lo <=? Byte.to_N b) && (Byte.to_N b <=? hi))%N.

Definition cont (b : byte) : bool := between 128 191 b.

Fixpoint utf8_valid (l : list byte) : bool :=
  match l with
  | [] => true
  | b0 :: r =>
      if between 0 127 b0 then utf8_valid r
      else if between 194 223 b0 then
        match r with
        | b1 :: r1 => cont b1 && utf8_valid r1
        | _ => false
        end
      else if between 224 239 b0 then
        match r with
        | b1 :: b2 :: r2 =>
            (if between 224 224 b0 then between 160 191 b1
             else if between 237 237 b0 then between 128 159 b1
             else cont b1)
            && cont b2 && utf8_valid r2
        | _ => false
        end
      else if between 240 244 b0 then
        match r with
        | b1 :: b2 :: b3 :: r3 =>
            (if between 240 240 b0 then between 144 191 b1
             else if between 244 244 b0 then between 128 143 b1
             else cont b1)
            && cont b2 && cont b3 && utf8_valid r3
        | _ => false
        end
      else false
  end.

Definition decode_utf8 (l : list byte) : option string :=
  if utf8_valid l then Some (string_of_list_byte l) else None.

(** [datetime.date] and its [str()], the ISO form [YYYY-MM-DD]. *)
Record date := Date { year : N; month : N; day : N }.

Definition isoformat (d : date) : string :=
  zfill 4 (pretty (year d)) +:+ "-" +:+ zfill 2 (pretty (month d))
    +:+ "-" +:+ zfill 2 (pretty (day d)).

(** A path with a NUL character in it: [os.stat], [open] and the like
    raise [ValueError] on it, whatever is on the disk. *)
Fixpoint has_nul (s : string) : bool :=
  match s with
  | EmptyString => false
  | String a s' => bool_decide (a = "000"%char) || has_nul s'
  end.

End Py.

(** ** Data model *)

(** One entry of [config["zoneminder_cameras"]]; [cam_id] is the key ["id"]. *)
Record Camera := {
  cam_id : string;
  event_video_prefix : string;
  scale : Z;
  skip_first_n_secs : Z;
  max_length_secs : Z
}.

(** The configuration document, as [parse_config] returns it. *)
Record Config := {
  mqtt_server : string;
  mqtt_port : Z;
  mqtt_user : string;
  mqtt_pwd : string;
  mqtt_base_events_topic : string;
  mqtt_base_gifs_topic : string;
  ffmpeg_working_folder : string;
  zoneminder_events_video_folder : string;
  zoneminder_cameras : list Camera
}.

(** An inbound message of the broker client. *)
Record Message := {
  topic : string;
  payload : list byte;
  retain : bool
}.

(** What happens when this process reads a file from its first byte to its
    last: the whole content arrives; or [open] is refused; or [open]
    succeeds and a read fails once [n] bytes have arrived. *)
Inductive access := Readable | Unopenable | FailsAfter (n : nat).

(** A file: its contents and how it can be read. *)
Record File := { f_data : list byte; f_access : access }.

(** The whole file can be read. *)
Definition f_readable (f : File) : bool :=
  match f_access f with
  | Readable => true
  | _ => false
  end.

(** The calls the handler makes on [self.mqtt_client]. *)
Inductive mqtt_call :=
| ConnectAsync (host : string) (port : Z)
| LoopStart
| LoopStop
| Disconnect
| Subscribe (channel : string)
| Publish (channel : string) (body : string).

(** A call of the client either returns (with the library's return code)
    or raises. *)
Inductive call_result := Returned (rc : Z) | Raised.

(** [subprocess.call] either returns the child's exit status or raises
    because the child could not be started. *)
Inductive proc_result := Exited (rc : Z) | SpawnError.

Inductive level := INFO | ERROR.

(** What the program does to the outside, in the order it does it. *)
Inductive Event :=
| EvPrint (s : string)
| EvLog (lvl : level) (fmt : string)
| EvCopy (src dst : string)
| EvExec (argv : list string)
| EvRemove (path : string)
| EvClient (c : mqtt_call) (r : call_result)
| EvSetFlag (b : bool)
| EvSleep (secs : Z).

Inductive exn :=
| UnicodeDecodeError
| TypeError
| FileNotFoundError
| PermissionError
| SameFileError
| OSError
| ValueError
| ClientError.

(** The world the handler runs in: the files, the calendar date, the
    handler's own attribute [sub_connected], and the trace of effects. *)
Record World := {
  w_fs : gmap string File;
  w_today : Py.date;
  sub_connected : bool;
  w_trace : list Event
}.

(** The answers of the outside: what [ffmpeg] does with an argument vector
    on a file system, and what the broker client answers to a call, given
    everything that happened before. *)
Record Externals := {
  ffmpeg : list string → gmap string File → proc_result * gmap string File;
  broker : list Event → mqtt_call → call_result
}.

Definition with_fs (fs : gmap string File) (w : World) : World :=
  {| w_fs := fs; w_today := w_today w;
     sub_connected := sub_connected w; w_trace := w_trace w |}.

Definition with_flag (b : bool) (w : World) : World :=
  {| w_fs := w_fs w; w_today := w_today w;
     sub_connected := b; w_trace := w_trace w |}.

Definition with_event (e : Event) (w : World) : World :=
  {| w_fs := w_fs w; w_today := w_today w;
     sub_connected := sub_connected w; w_trace := w_trace w ++ [e] |}.

(** ** The monad of effects: state passing with exceptions *)

Inductive res (A : Type) := Ok (a : A) | Raise (e : exn).
Arguments Ok {A} a.
Arguments Raise {A} e.

Definition M (A : Type) : Type := World → res A * World.

Global Instance M_ret : MRet M := λ A a w, (Ok a, w).

Global Instance M_bind : MBind M := λ A B f m w,
  match m w with
  | (Ok a, w') => f a w'
  | (Raise e, w') => (Raise e, w')
  end.

Definition raise {A} (e : exn) : M A := λ w, (Raise e, w).

(** [try: body  except Exception as err: handler]. *)
Definition try_except {A} (body : M A) (handler : exn → M A) : M A := λ w,
  match body w with
  | (Ok a, w') => (Ok a, w')
  | (Raise e, w') => handler e w'
  end.

Definition emit (e : Event) : M unit := λ w, (Ok tt, with_event e w).

(** [logging.info] and [logging.error] never raise: an error while
    formatting a record is reported by the logging module on stderr.
    [print] writes a line on the standard output, which is taken to
    accept it. *)
Definition logging_info (fmt : string) : M unit := emit (EvLog INFO fmt).
Definition logging_error (fmt : string) : M unit := emit (EvLog ERROR fmt).
Definition print (s : string) : M unit := emit (EvPrint s).
Definition time_sleep (secs : Z) : M unit := emit (EvSleep secs).

Definition date_today : M Py.date := λ w, (Ok (w_today w), w).

(** The copy that [shutil.copyfile] leaves when the source is read to its
    end, and the one it leaves when a read fails after [n] bytes. *)
Definition working_copy (f : File) : File :=
  {| f_data := f_data f; f_access := Readable |}.

Definition partial_copy (n : nat) (f : File) : File :=
  {| f_data := take n (f_data f); f_access := Readable |}.

(** [shutil.copyfile(src, dst)].  No file has a NUL character in its name,
    and Python refuses such a path with [ValueError] when it first hands it
    to the system.  Copying a file onto itself is refused.  The source is
    opened before the destination is created, so a source that is missing
    or cannot be opened leaves the file system as it was; the destination
    is created before the first byte is read, so a read that fails leaves
    what was copied until then.  A path names one file and a file has one
    path, and the folder of the destination is taken to be there and
    writable. *)
Definition copyfile (src dst : string) : M unit := λ w,
  let w1 := with_event (EvCopy src dst) w in
  match w_fs w !! src with
  | None =>
      if Py.has_nul src || Py.has_nul dst then (Raise ValueError, w1)
      else (Raise FileNotFoundError, w1)
  | Some f =>
      if bool_decide (src = dst) then (Raise SameFileError, w1)
      else match f_access f with
           | Readable => (Ok tt, with_fs (<[dst := working_copy f]> (w_fs w)) w1)
           | Unopenable => (Raise PermissionError, w1)
           | FailsAfter n => (Raise OSError, with_fs (<[dst := partial_copy n f]> (w_fs w)) w1)
           end
  end.

(** [os.remove(path)]. *)
Definition os_remove (path : string) : M unit := λ w,
  let w1 := with_event (EvRemove path) w in
  match w_fs w !! path with
  | None => (Raise FileNotFoundError, w1)
  | Some _ => (Ok tt, with_fs (delete path (w_fs w)) w1)
  end.

Definition get_sub_connected : M bool := λ w, (Ok (sub_connected w), w).

Definition set_sub_connected (b : bool) : M unit := λ w,
  (Ok tt, with_flag b (with_event (EvSetFlag b) w)).

Section Program.

Variable ext : Externals.

(** [subprocess.call(argv)]: a child that ran leaves its file system and
    its exit status; a child that could not be started leaves nothing. *)
Definition subprocess_call (argv : list string) : M Z := λ w,
  let w1 := with_event (EvExec argv) w in
  match ffmpeg ext argv (w_fs w) with
  | (Exited rc, fs') => (Ok rc, with_fs fs' w1)
  | (SpawnError, _) => (Raise OSError, w1)
  end.

(** A call on [self.mqtt_client]. *)
Definition client (c : mqtt_call) : M Z := λ w,
  match broker ext (w_trace w) c with
  | Returned rc => (Ok rc, with_event (EvClient c (Returned rc)) w)
  | Raised => (Raise ClientError, with_event (EvClient c Raised) w)
  end.

(** ** The module-level functions *)

Definition zm_get_video
    (ffmpeg_working_folder zm_source_video_folder event_video_prefix event_id : string)
    : M string :=
  today ← date_today;
  let source_video :=
    zm_source_video_folder +:+ "/" +:+ Py.isoformat today +:+ "/"
      +:+ (event_video_prefix +:+ EmptyString +:+ event_id) +:+ ".mp4" in
  let outfile_video := ffmpeg_working_folder +:+ "/" +:+ event_id +:+ ".mp4" in
  logging_info "Copying video for event id %s from %s to %s .....";;
  copyfile source_video outfile_video;;
  logging_info ".....done";;
  mret outfile_video.

(** The argument vector handed to [subprocess.call]. *)
Definition ffmpeg_argv (scale skip_first_n_secs max_length_secs : Z)
    (input_video output_gif : string) : list string :=
  [ "ffmpeg"; "-stats"; "-i"; input_video; "-vf";
    "fps=15,scale=" +:+ Py.str_of_int scale +:+ ":-1:flags=lanczos";
    "-ss"; "00:00:" +:+ Py.zfill 2 (Py.str_of_int skip_first_n_secs);
    "-t"; Py.str_of_int max_length_secs; "-y";
    output_gif ].

Definition convert_zm_video_to_gif (scale skip_first_n_secs max_length_secs : Z)
    (input_video output_gif : string) : M Z :=
  logging_info
    "Converting to gif scale %i skip_first_n_secs %i max_length_secs %i input_video %s output_gif %s .....";;
  retcode ← subprocess_call
    (ffmpeg_argv scale skip_first_n_secs max_length_secs input_video output_gif);
  os_remove input_video;;
  logging_info ".....done";;
  mret retcode.

(** ** The class [ZoneMinderMotionEventHandler] *)

Section ZoneMinderMotionEventHandler.

Variable config : Config.

(** [for x in l: body(x)]: an exception leaves the loop. *)
Fixpoint for_each {A} (l : list A) (body : A → M unit) : M unit :=
  match l with
  | [] => mret tt
  | x :: rest => body x;; for_each rest body
  end.

(** The truth value of what [publish_gif] returns: [True] or [None]. *)
Definition truthy (v : option bool) : bool :=
  match v with
  | Some b => b
  | None => false
  end.

(** [str(message.retain)]: the client stores the retain bit of the packet
    header, an integer. *)
Definition str_of_retain (b : bool) : string := if b then "1" else "0".

Definition disconnect : M unit :=
  try_except
    (logging_info "disconnecting from mqtt_server %s mqtt_port %i";;
     client Disconnect;;
     mret tt)
    (λ err, logging_error "disconnect exception").

Definition connect : M unit :=
  try_except
    (logging_info "connecting to mqtt_server %s mqtt_port %i";;
     client (ConnectAsync (mqtt_server config) (mqtt_port config));;
     client LoopStart;;
     mret tt)
    (λ err, logging_error "connect exception";; disconnect).

Definition on_connect (rc : Z) : M unit :=
  try_except
    (logging_info "connected to mqtt_server %s  mqtt_port %i";;
     for_each (zoneminder_cameras config) (λ camera,
       logging_info "subscribing topic %s for camera %s";;
       client (Subscribe (mqtt_base_events_topic config +:+ "/" +:+ cam_id camera));;
       mret tt);;
     set_sub_connected true)
    (λ err, logging_error "on_connect exception";; disconnect).

Definition on_disconnect (rc : Z) : M unit :=
  logging_info "disconnected %s";;
  (if bool_decide (rc ≠ 0) then logging_info "unexpected disconnection." else mret tt);;
  set_sub_connected false;;
  client LoopStop;;
  mret tt.

Definition on_subscribe (mid : Z) : M unit :=
  logging_info "subscribed topic %s";;
  set_sub_connected true.

Definition on_publish (mid : Z) : M unit :=
  logging_info "published message %s";;
  set_sub_connected true.

Definition publish_gif (camera_topic gif : string) : M (option bool) :=
  try_except
    (retcode ← client (Publish (mqtt_base_gifs_topic config +:+ "/" +:+ camera_topic) gif);
     logging_info "mqtt_client.publish retcode %s";;
     mret (Some true))
    (λ err, logging_error "publish exception";; disconnect;; mret None).

(** [message.payload.decode("utf-8")]. *)
Definition payload_decode (message : Message) : M string :=
  match Py.decode_utf8 (payload message) with
  | Some s => mret s
  | None => raise UnicodeDecodeError
  end.

(** The camera identifier of an inbound topic. *)
Definition camera_id_of_topic (t : string) : string :=
  Py.replace (mqtt_base_events_topic config +:+ "/") EmptyString t.

(** [next((x for x in cameras if x["id"] == camera_id), None)]. *)
Definition lookup_camera (camera_id : string) : option Camera :=
  List.find (λ x, bool_decide (cam_id x = camera_id)) (zoneminder_cameras config).

(** The body of the [try] block of [on_message].  Subscripting [None]
    (no camera has the identifier) raises [TypeError]. *)
Definition on_message_body (message : Message) : M unit :=
  event_id ← payload_decode message;
  print ("message received   " +:+ event_id +:+ " topic " +:+ topic message
           +:+ " retained  " +:+ str_of_retain (retain message));;
  let camera_id := camera_id_of_topic (topic message) in
  match lookup_camera camera_id with
  | None => raise TypeError
  | Some camera =>
      let event_video_prefix := event_video_prefix camera in
      logging_info
        "Getting event video for camera %s from base directory %s with event prefix %s";;
      outfile_video ← zm_get_video (ffmpeg_working_folder config)
                        (zoneminder_events_video_folder config)
                        event_video_prefix event_id;
      logging_info "Found video for camera %s";;
      let outfile_gif := ffmpeg_working_folder config +:+ "/" +:+ event_id +:+ ".gif" in
      convert_retcode ← convert_zm_video_to_gif (scale camera)
                          (skip_first_n_secs camera)
                          (max_length_secs camera)
                          outfile_video outfile_gif;
      if bool_decide (convert_retcode = 0) then
        public_retcode ← publish_gif (cam_id camera) (event_id +:+ ".gif");
        if truthy public_retcode
        then logging_info "Done processing event_id %s for camera %s"
        else logging_error
               "Invalid return code from mqtt publish for event id %i camera topic %s"
      else
        logging_error "Invalid return code from ffmpeg subprocess call for event id %i"
  end.

Definition on_message (message : Message) : M unit :=
  try_except (on_message_body message)
    (λ err, logging_error "on message exception";; disconnect).

(** One turn of the loop of [main]. *)
Definition main_loop_iteration : M unit :=
  connected ← get_sub_connected;
  (if negb connected then connect else mret tt);;
  time_sleep 10.

End ZoneMinderMotionEventHandler.

End Program.

(** ** Reading a trace *)

Definition publish_of (e : Event) : option (string * string) :=
  match e with
  | EvClient (Publish channel body) _ => Some (channel, body)
  | _ => None
  end.

Definition subscribe_of (e : Event) : option string :=
  match e with
  | EvClient (Subscribe channel) _ => Some channel
  | _ => None
  end.

Definition client_of (e : Event) : option (mqtt_call * call_result) :=
  match e with
  | EvClient c r => Some (c, r)
  | _ => None
  end.

Definition file_op_of (e : Event) : option Event :=
  match e with
  | EvCopy _ _ | EvExec _ | EvRemove _ => Some e
  | _ => None
  end.

Definition flag_of (e : Event) : option bool :=
  match e with
  | EvSetFlag b => Some b
  | _ => None
  end.

(** The publishes, subscribes, client calls, file operations and
    assignments to [sub_connected] of a run, in order. *)
Definition publishes (evs : list Event) : list (string * string) := omap publish_of evs.
Definition subscribes (evs : list Event) : list string := omap subscribe_of evs.
Definition client_calls (evs : list Event) : list (mqtt_call * call_result) := omap client_of evs.
Definition file_ops (evs : list Event) : list Event := omap file_op_of evs.
Definition flag_writes (evs : list Event) : list bool := omap flag_of evs.

(** An error was logged; the client was told to disconnect. *)
Definition error_logged (evs : list Event) : Prop := ∃ fmt, EvLog ERROR fmt ∈ evs.
Definition disconnect_called (evs : list Event) : Prop := ∃ r, EvClient Disconnect r ∈ evs.

(** What [disconnect()] leaves in the trace, when the client answers [r]. *)
Definition disconnect_events (r : call_result) : list Event :=
  [EvLog INFO "disconnecting from mqtt_server %s mqtt_port %i"; EvClient Disconnect r]
  ++ match r with
     | Returned _ => []
     | Raised => [EvLog ERROR "disconnect exception"]
     end.

(** The failure escalation of [on_message]: the error is logged, then
    [disconnect()] runs, and nothing follows. *)
Definition escalated (evs : list Event) : Prop :=
  ∃ r, (EvLog ERROR "on message exception" :: disconnect_events r) `suffix_of` evs.

(** The events a computation adds to the trace of [w]. *)
Definition events_of {A} (m : M A) (w : World) : list Event :=
  drop (length (w_trace w)) (w_trace (m w).2).

(** The world [w'] differs from [w] by the events [evs] at the end of the
    trace and by nothing else. *)
Definition only_events (w w' : World) (evs : list Event) : Prop :=
  w_trace w' = w_trace w ++ evs ∧ w_fs w' = w_fs w
  ∧ w_today w' = w_today w ∧ sub_connected w' = sub_connected w.

(** ** The paths and channels of the configuration *)

Definition source_video_path (config : Config) (camera : Camera)
    (event_id : string) (today : Py.date) : string :=
  zoneminder_events_video_folder config +:+ "/" +:+ Py.isoformat today +:+ "/"
    +:+ (event_video_prefix camera +:+ EmptyString +:+ event_id) +:+ ".mp4".

Definition working_copy_path (config : Config) (event_id : string) : string :=
  ffmpeg_working_folder config +:+ "/" +:+ event_id +:+ ".mp4".

Definition gif_path (config : Config) (event_id : string) : string :=
  ffmpeg_working_folder config +:+ "/" +:+ event_id +:+ ".gif".

Definition events_channel (config : Config) (camera : Camera) : string :=
  mqtt_base_events_topic config +:+ "/" +:+ cam_id camera.

Definition gifs_channel (config : Config) (camera : Camera) : string :=
  mqtt_base_gifs_topic config +:+ "/" +:+ cam_id camera.


(** ** The specification's readings, to compare the code with *)

(** A number of seconds written as [HH:MM:SS]. *)
Definition spec_hhmmss (secs : Z) : string :=
  Py.zfill 2 (Py.str_of_int (secs / 3600)) +:+ ":"
    +:+ Py.zfill 2 (Py.str_of_int ((secs / 60) mod 60)) +:+ ":"
    +:+ Py.zfill 2 (Py.str_of_int (secs mod 60)).

(** The leading [p] of [s] removed once, when [s] starts with it. *)
Fixpoint strip_prefix (p s : string) : option string :=
  match p, s with
  | EmptyString, _ => Some s
  | String a p', String b s' => if bool_decide (a = b) then strip_prefix p' s' else None
  | String _ _, EmptyString => None
  end.

Definition spec_strip_prefix (p s : string) : string :=
  default s (strip_prefix p s).



(** The character [c] occurs in [s]. *)
Fixpoint has_char (c : ascii) (s : string) : bool :=
  match s with
  | EmptyString => false
  | String a s' => bool_decide (a = c) || has_char c s'
  end.

(** The value of [sub_connected] after the events [pre], when it was [init]
    before them. *)
Definition flag_after (init : bool) (pre : list Event) : bool :=
  default init (last (flag_writes pre)).

(** The order the specification gives to [onConnect]: the state is
    [Connected] (the flag is true) at the time of every subscribe. *)
Definition spec_subscribes_when_connected (init : bool) (evs : list Event) : Prop :=
  ∀ pre channel r post,
    evs = pre ++ EvClient (Subscribe channel) r :: post → flag_after init pre = true.

(** The events of the loop of [on_connect] over the cameras [l], when every
    subscribe returned: for each camera, in order, a log line and the
    subscribe of its channel. *)
Inductive subscribed (config : Config) : list Camera → list Event → Prop :=
| subscribed_nil : subscribed config [] []
| subscribed_cons camera rc l evs :
    subscribed config l evs →
    subscribed config (camera :: l)
      (EvLog INFO "subscribing topic %s for camera %s"
         :: EvClient (Subscribe (events_channel config camera)) (Returned rc)
         :: evs).

(** ** A small installation, to run the program on *)

Module Demo.

Definition cam1 : Camera :=
  {| cam_id := "cam1"; event_video_prefix := "cam1-";
     scale := 480; skip_first_n_secs := 2; max_length_secs := 8 |}.

Definition cam2 : Camera :=
  {| cam_id := "cam2"; event_video_prefix := "cam2-";
     scale := 320; skip_first_n_secs := 100; max_length_secs := 5 |}.

Definition cfg : Config :=
  {| mqtt_server := "broker"; mqtt_port := 1883;
     mqtt_user := "zm"; mqtt_pwd := "secret";
     mqtt_base_events_topic := "zm/events"; mqtt_base_gifs_topic := "zm/gifs";
     ffmpeg_working_folder := "/work";
     zoneminder_events_video_folder := "/zm";
     zoneminder_cameras := [cam1; cam2] |}.

(** A configuration whose camera identifier contains the events topic. *)
Definition nested_cam : Camera :=
  {| cam_id := "zm/cam1"; event_video_prefix := "cam1-";
     scale := 480; skip_first_n_secs := 2; max_length_secs := 8 |}.

Definition nested_cfg : Config :=
  {| mqtt_server := "broker"; mqtt_port := 1883;
     mqtt_user := "zm"; mqtt_pwd := "secret";
     mqtt_base_events_topic := "zm"; mqtt_base_gifs_topic := "gifs";
     ffmpeg_working_folder := "/work";
     zoneminder_events_video_folder := "/zm";
     zoneminder_cameras := [nested_cam] |}.

Definition clip : File := {| f_data := [x00; x01; x02]%byte; f_access := Readable |}.
Definition gif : File := {| f_data := [x47; x49; x46]%byte; f_access := Readable |}.

Definition day0 : Py.date := Py.Date 2026 3 7.

(** The clip of event 123 of [cam1] is in today's folder. *)
Definition w0 : World :=
  {| w_fs := {[ "/zm/2026-03-07/cam1-123.mp4" := clip ]};
     w_today := day0; sub_connected := false; w_trace := [] |}.

(** The working copy of the clip has been made. *)
Definition w_copied : World :=
  {| w_fs := {[ "/zm/2026-03-07/cam1-123.mp4" := clip; "/work/123.mp4" := clip ]};
     w_today := day0; sub_connected := false; w_trace := [] |}.

(** No clip at all. *)
Definition w_empty : World :=
  {| w_fs := ∅; w_today := day0; sub_connected := false; w_trace := [] |}.




(** [ffmpeg] writes its last argument and exits with [rc]. *)
Definition ffmpeg_exits (rc : Z) (argv : list string) (fs : gmap string File)
    : proc_result * gmap string File :=
  (Exited rc, match last argv with
              | Some out => <[out := gif]> fs
              | None => fs
              end).

(** A broker client whose calls all return 0. *)
Definition ext_ok : Externals :=
  {| ffmpeg := ffmpeg_exits 0; broker := λ _ _, Returned 0 |}.

(** [ffmpeg] fails with exit status 1. *)
Definition ext_ffmpeg_fails : Externals :=
  {| ffmpeg := ffmpeg_exits 1; broker := λ _ _, Returned 0 |}.

(** [ffmpeg] cannot be started. *)
Definition ext_no_ffmpeg : Externals :=
  {| ffmpeg := λ _ fs, (SpawnError, fs); broker := λ _ _, Returned 0 |}.

(** The client raises on every publish. *)
Definition ext_publish_raises : Externals :=
  {| ffmpeg := ffmpeg_exits 0;
     broker := λ _ c, match c with Publish _ _ => Raised | _ => Returned 0 end |}.

(** The client returns the code 4 (no connection) on every publish. *)
Definition ext_publish_rc4 : Externals :=
  {| ffmpeg := ffmpeg_exits 0;
     broker := λ _ c, match c with Publish _ _ => Returned 4 | _ => Returned 0 end |}.

(** The client raises when asked to subscribe to the channel of [cam2]. *)
Definition ext_subscribe_raises : Externals :=
  {| ffmpeg := ffmpeg_exits 0;
     broker := λ _ c,
       match c with
       | Subscribe channel => if bool_decide (channel = "zm/events/cam2") then Raised else Returned 0
       | _ => Returned 0
       end |}.

Definition msg : Message :=
  {| topic := "zm/events/cam1"; payload := [x31; x32; x33]%byte; retain := false |}.

Definition msg_unknown_camera : Message :=
  {| topic := "zm/events/cam9"; payload := [x31; x32; x33]%byte; retain := false |}.

Definition msg_bad_payload : Message :=
  {| topic := "zm/events/cam1"; payload := [xff; xfe]%byte; retain := false |}.

Definition msg_nested : Message :=
  {| topic := "zm/zm/cam1"; payload := [x31; x32; x33]%byte; retain := false |}.

End Demo.

(** ** The loop of [main] *)

(** The first [turns] turns of [while True: ...]. *)
Fixpoint main_loop (ext : Externals) (config : Config) (turns : nat) : M unit :=
  match turns with
  | O => mret tt
  | S k => main_loop_iteration ext config;; main_loop ext config k
  end.

(** More readings of a trace: the [connect_async] calls, the sleeps and the
    error lines. *)
Definition connect_async_of (e : Event) : option (string * Z) :=
  match e with
  | EvClient (ConnectAsync host port) _ => Some (host, port)
  | _ => None
  end.

Definition sleep_of (e : Event) : option Z :=
  match e with
  | EvSleep secs => Some secs
  | _ => None
  end.

Definition error_of (e : Event) : option string :=
  match e with
  | EvLog ERROR fmt => Some fmt
  | _ => None
  end.

Definition disconnect_of (e : Event) : option call_result :=
  match e with
  | EvClient Disconnect r => Some r
  | _ => None
  end.

Definition disconnects (evs : list Event) : list call_result := omap disconnect_of evs.
Definition connect_asyncs (evs : list Event) : list (string * Z) := omap connect_async_of evs.
Definition sleeps (evs : list Event) : list Z := omap sleep_of evs.
Definition log_errors (evs : list Event) : list string := omap error_of evs.

(** The events of a run that come before its first publish. *)
Fixpoint before_publish (evs : list Event) : list Event :=
  match evs with
  | [] => []
  | e :: rest =>
      match publish_of e with
      | Some _ => []
      | None => e :: before_publish rest
      end
  end.

(** A call that [on_message] may make on the client. *)
Definition publish_or_disconnect (c : mqtt_call) : bool :=
  match c with
  | Publish _ _ | Disconnect => true
  | _ => false
  end.

(** * Properties *)

(** ** The string helpers on examples *)

Example zfill_5 : Py.zfill 2 (Py.str_of_int 5) = "05".
Proof. reflexivity. Qed.

Example zfill_neg : Py.zfill 3 (Py.str_of_int (-5)) = "-05".
Proof. reflexivity. Qed.

Example replace_twice : Py.replace "zm/" EmptyString "zm/zm/cam1" = "cam1".
Proof. reflexivity. Qed.

Example isoformat_ex : Py.isoformat (Py.Date 2026 3 7) = "2026-03-07".
Proof. reflexivity. Qed.

Example decode_ascii : Py.decode_utf8 [x31; x32; x33]%byte = Some "123".
Proof. reflexivity. Qed.

Example decode_bad : Py.decode_utf8 [xff]%byte = None.
Proof. reflexivity. Qed.

Example on_message_demo :
  let r := on_message Demo.ext_ok Demo.cfg Demo.msg Demo.w0 in
  r.1 = Ok tt
  ∧ publishes (w_trace r.2) = [("zm/gifs/cam1", "123.gif")]
  ∧ file_ops (w_trace r.2) =
      [ EvCopy "/zm/2026-03-07/cam1-123.mp4" "/work/123.mp4";
        EvExec ["ffmpeg"; "-stats"; "-i"; "/work/123.mp4"; "-vf";
                "fps=15,scale=480:-1:flags=lanczos"; "-ss"; "00:00:02";
                "-t"; "8"; "-y"; "/work/123.gif"];
        EvRemove "/work/123.mp4" ].
Proof. vm_compute. done. Qed.

(** ** Worlds and traces *)

Lemma readable_access f : f_readable f = true → f_access f = Readable.
Proof. unfold f_readable. by destruct (f_access f). Qed.

Lemma access_readable f : f_access f = Readable → f_readable f = true.
Proof. unfold f_readable. by intros ->. Qed.

Lemma only_events_refl w : only_events w w [].
Proof. unfold only_events. by rewrite app_nil_r. Qed.

Lemma events_of_ext {A} (m : M A) w evs :
  w_trace (m w).2 = w_trace w ++ evs → events_of m w = evs.
Proof. unfold events_of. intros ->. apply drop_app_length. Qed.

(** ** Running the program by hand *)

Ltac unfold_prog :=
  unfold events_of;
  repeat progress unfold on_message, on_message_body, publish_gif, on_connect, on_disconnect,
    on_subscribe, on_publish, connect, disconnect, main_loop_iteration,
    convert_zm_video_to_gif, zm_get_video, payload_decode, subprocess_call,
    client, copyfile, os_remove, date_today, get_sub_connected,
    set_sub_connected, logging_info, logging_error, print, time_sleep, emit,
    raise, try_except, mbind, M_bind, mret, M_ret;
  cbv beta.

Ltac world_simpl :=
  cbn [fst snd w_trace w_fs w_today sub_connected with_event with_fs with_flag
       truthy negb].

(** Bring a trace to the form [w_trace w ++ e1 :: e2 :: ...] and read the
    events of the run off it. *)
Ltac trace_norm := rewrite <- ?app_assoc; cbn [app].

Ltac read_events :=
  world_simpl; trace_norm; rewrite ?drop_app_length.

(** Point at an event of an explicit list. *)
Ltac find_elem :=
  solve [repeat first [apply list_elem_of_here | apply list_elem_of_further]].

(** No event of an explicit list has the shape of [H]. *)
Ltac refute_elem H :=
  solve [ repeat (apply elem_of_cons in H as [H|H]; [discriminate H|]);
          apply elem_of_nil in H; destruct H ].

Section Facts.

Variable ext : Externals.
Variable config : Config.

(** The acknowledgement callbacks log and set the flag, whatever it was. *)
Lemma on_subscribe_run mid w :
  on_subscribe mid w =
    (Ok tt, with_flag true (with_event (EvSetFlag true)
              (with_event (EvLog INFO "subscribed topic %s") w))).
Proof. reflexivity. Qed.

Lemma on_publish_run mid w :
  on_publish mid w =
    (Ok tt, with_flag true (with_event (EvSetFlag true)
              (with_event (EvLog INFO "published message %s") w))).
Proof. reflexivity. Qed.

(** [on_disconnect] clears the flag before it stops the loop, so the flag is
    cleared even when [loop_stop] raises. *)
Lemma on_disconnect_clears rc w : sub_connected (on_disconnect ext rc w).2 = false.
Proof.
  unfold_prog. world_simpl.
  case_bool_decide; world_simpl; destruct (broker ext _ LoopStop); done.
Qed.

(** A turn of the main loop with the flag set only sleeps. *)
Lemma main_loop_connected w :
  sub_connected w = true →
  main_loop_iteration ext config w = (Ok tt, with_event (EvSleep 10) w).
Proof. unfold_prog. intros ->. reflexivity. Qed.

(** A turn of the main loop with the flag cleared calls [connect()], whose
    first call on the client is [connect_async]. *)
Lemma main_loop_disconnected w :
  sub_connected w = false →
  ∃ r rest,
    client_calls (events_of (main_loop_iteration ext config) w) =
      (ConnectAsync (mqtt_server config) (mqtt_port config), r) :: rest.
Proof.
  intros Hc. unfold_prog. rewrite Hc. cbn [negb]. world_simpl.
  destruct (broker ext _ (ConnectAsync _ _)) as [rc|] eqn:Hb; world_simpl.
  - destruct (broker ext _ LoopStart) as [rc'|] eqn:Hb'; world_simpl.
    + read_events. by eexists _, _.
    + destruct (broker ext _ Disconnect) as [rc''|]; world_simpl;
        read_events; by eexists _, _.
  - destruct (broker ext _ Disconnect) as [rc''|]; world_simpl;
      read_events; by eexists _, _.
Qed.

End Facts.

(** ** The acknowledgement callbacks and the main loop *)

(** C10: [on_subscribe] and [on_publish] each set [sub_connected] to true,
    whatever the world they run in.  So when [on_disconnect] has cleared the
    flag (the next turn of the main loop would then call [connect()]), an
    acknowledgement delivered afterwards marks the process connected again,
    and the next turn of the main loop makes no call on the client at all:
    it only sleeps. *)
Theorem C10_acknowledgement_marks_connected
    (ext : Externals) (config : Config) (mid rc : Z) (w : World) :
  let cleared := (on_disconnect ext rc w).2 in
  (∀ w0, sub_connected (on_subscribe mid w0).2 = true)
  ∧ (∀ w0, sub_connected (on_publish mid w0).2 = true)
  ∧ sub_connected cleared = false
  ∧ (∃ r rest,
       client_calls (events_of (main_loop_iteration ext config) cleared) =
         (ConnectAsync (mqtt_server config) (mqtt_port config), r) :: rest)
  ∧ sub_connected (on_subscribe mid cleared).2 = true
  ∧ events_of (main_loop_iteration ext config) (on_subscribe mid cleared).2 = [EvSleep 10]
  ∧ sub_connected (on_publish mid cleared).2 = true
  ∧ events_of (main_loop_iteration ext config) (on_publish mid cleared).2 = [EvSleep 10].
Proof.
  intros cleared.
  assert (Hrun : ∀ w1, sub_connected w1 = true →
            events_of (main_loop_iteration ext config) w1 = [EvSleep 10]).
  { intros w1 H1. apply events_of_ext.
    rewrite (main_loop_connected ext config w1 H1). reflexivity. }
  split_and!; try done.
  - apply on_disconnect_clears.
  - apply main_loop_disconnected, on_disconnect_clears.
  - by apply Hrun.
  - by apply Hrun.
Qed.

(** ** The publisher *)

(** [publish_gif] makes one call on the client, a publish of the file name
    on the channel [<mqtt_base_gifs_topic>/<camera_topic>], and never
    raises.  It returns [True] whenever that call returned, whatever return
    code the client gave (the code is logged only), and [None], after
    logging and calling [disconnect()], exactly when the call raised. *)
Lemma publish_gif_true_unless_raised
    (ext : Externals) (config : Config) (camera_topic gif : string) (w : World) :
  let call := Publish (mqtt_base_gifs_topic config +:+ "/" +:+ camera_topic) gif in
  let answer := broker ext (w_trace w) call in
  let run := publish_gif ext config camera_topic gif w in
  let evs := events_of (publish_gif ext config camera_topic gif) w in
  publishes evs = [(mqtt_base_gifs_topic config +:+ "/" +:+ camera_topic, gif)]
  ∧ head evs = Some (EvClient call answer)
  ∧ (∃ v, run.1 = Ok v
        ∧ (truthy v = true ↔ ∃ rc, answer = Returned rc)
        ∧ (truthy v = false ↔ answer = Raised))
  ∧ match answer with
    | Returned _ => run.1 = Ok (Some true) ∧ ¬ disconnect_called evs
    | Raised => run.1 = Ok None ∧ error_logged evs ∧ disconnect_called evs
    end.
Proof.
  intros call answer run evs. subst run evs answer call.
  unfold_prog. world_simpl.
  destruct (broker ext (w_trace w) (Publish _ gif)) as [rc|] eqn:Hb; world_simpl.
  - read_events. split_and!; try done.
    + exists (Some true). split_and!; try done.
      * split; [by eexists|done].
    + intros [r Hr]. refute_elem Hr.
  - destruct (broker ext _ Disconnect) as [rc|] eqn:Hd; world_simpl;
      read_events; (split_and!; try done;
        [ exists None; split_and!; try done; split; [done|by intros [? ?]]
        | eexists; find_elem
        | eexists; find_elem ]).
Qed.

(** C9: the client answers the publish with the return code 4 (no
    connection: nothing was sent) without raising.  [publish_gif] makes
    that one call and returns [True]; [on_message], run on the message of
    event 123, takes the [True] for a send that succeeded: it logs no error
    and ends on the line [Done processing ...].  So success is reported
    for a send that did not succeed. *)
Theorem C9_publish_gif_true_on_return_code_4 :
  let run := publish_gif Demo.ext_publish_rc4 Demo.cfg "cam1" "123.gif" Demo.w0 in
  let handled := on_message Demo.ext_publish_rc4 Demo.cfg Demo.msg Demo.w0 in
  client_calls (w_trace run.2) = [(Publish "zm/gifs/cam1" "123.gif", Returned 4)]
  ∧ run.1 = Ok (Some true)
  ∧ client_calls (w_trace handled.2) = [(Publish "zm/gifs/cam1" "123.gif", Returned 4)]
  ∧ log_errors (w_trace handled.2) = []
  ∧ last (w_trace handled.2)
    = Some (EvLog INFO "Done processing event_id %s for camera %s").
Proof. split_and!; vm_compute; reflexivity. Qed.

(** ** The video fetcher *)




(** ** The transcoder *)

(** When [ffmpeg] cannot be started no exit status exists, the exception
    propagates and the working copy stays where it is. *)
Lemma convert_spawn_error ext scale skip maxlen input output w fs' :
  ffmpeg ext (ffmpeg_argv scale skip maxlen input output) (w_fs w) = (SpawnError, fs') →
  let run := convert_zm_video_to_gif ext scale skip maxlen input output w in
  run.1 = Raise OSError ∧ w_fs run.2 = w_fs w.
Proof. intros H. unfold_prog. world_simpl. rewrite H. done. Qed.


(** On the demo installation, with the working copy made and [ffmpeg]
    exiting with status 1: the working copy is removed. *)
Example convert_ffmpeg_fails_demo :
  let run := convert_zm_video_to_gif Demo.ext_ffmpeg_fails 480 2 8
               "/work/123.mp4" "/work/123.gif" Demo.w_copied in
  run.1 = Ok 1
  ∧ w_fs run.2 !! "/work/123.mp4" = None
  ∧ file_ops (w_trace run.2)
    = [EvExec (ffmpeg_argv 480 2 8 "/work/123.mp4" "/work/123.gif");
       EvRemove "/work/123.mp4"].
Proof. split_and!; vm_compute; reflexivity. Qed.

(** The same step when [ffmpeg] cannot be started: the only file operation
    is the call of [ffmpeg], and the working copy is still there. *)
Example convert_no_ffmpeg_demo :
  let run := convert_zm_video_to_gif Demo.ext_no_ffmpeg 480 2 8
               "/work/123.mp4" "/work/123.gif" Demo.w_copied in
  run.1 = Raise OSError
  ∧ w_fs run.2 !! "/work/123.mp4" = Some Demo.clip
  ∧ file_ops (w_trace run.2)
    = [EvExec (ffmpeg_argv 480 2 8 "/work/123.mp4" "/work/123.gif")].
Proof. split_and!; vm_compute; reflexivity. Qed.


(** ** The message handler *)

(** One step of a run of [on_message]: decide the next thing the outside
    answers, in the order the program asks. *)
Ltac step :=
  world_simpl;
  match goal with
  | |- context [Py.decode_utf8 ?p] => destruct (Py.decode_utf8 p) eqn:?
  | |- context [lookup_camera ?c ?i] => destruct (lookup_camera c i) eqn:?
  | |- context [@lookup _ _ (gmap string File) _ ?k ?m] => destruct (m !! k) eqn:?
  | |- context [Py.has_nul ?a || Py.has_nul ?b] => destruct (Py.has_nul a || Py.has_nul b) eqn:?
  | |- context [bool_decide ?P] => destruct (bool_decide_reflect P)
  | |- context [f_access ?f] => destruct (f_access f) eqn:?
  | |- context [ffmpeg ?e ?a ?f] => destruct (ffmpeg e a f) as [[?|] ?] eqn:?
  | |- context [broker ?e ?h ?c] => destruct (broker e h c) eqn:?
  end.

(** The end of a trace is the failure escalation of [on_message]. *)
Ltac find_suffix :=
  solve [ repeat first [ by exists [] | apply suffix_cons_r ] ].

Ltac show_escalated :=
  unfold escalated, disconnect_events;
  first [ eexists (Returned _); cbn [app]; find_suffix
        | exists Raised; cbn [app]; find_suffix ].

Lemma lookup_camera_None config camera_id :
  (∀ camera, camera ∈ zoneminder_cameras config → cam_id camera ≠ camera_id) →
  lookup_camera config camera_id = None.
Proof.
  unfold lookup_camera. induction (zoneminder_cameras config) as [|c l IH]; intros H.
  - reflexivity.
  - cbn [List.find]. case_bool_decide as Hc.
    + exfalso. apply (H c); [by left | done].
    + apply IH. intros c' Hc'. apply H. by right.
Qed.

Lemma lookup_camera_Some config camera_id camera :
  lookup_camera config camera_id = Some camera →
  camera ∈ zoneminder_cameras config ∧ cam_id camera = camera_id.
Proof.
  unfold lookup_camera. intros H. apply List.find_some in H as [Hin Hid].
  split; [by apply list_elem_of_In | by case_bool_decide].
Qed.

Lemma escalated_logs_and_disconnects evs :
  escalated evs → error_logged evs ∧ disconnect_called evs.
Proof.
  intros (r & pre & ->). split.
  - exists "on message exception". apply elem_of_app. right. by left.
  - exists r. apply elem_of_app. right. unfold disconnect_events. cbn [app]. find_elem.
Qed.

(** C6: when no configured camera has the identifier derived from the
    topic, [on_message] copies nothing, starts no [ffmpeg], removes nothing
    and publishes nothing; the file system is as before, and the run ends
    in the failure escalation of the handler: the error is logged and
    [disconnect()] is called.  The handler itself returns normally. *)
Theorem C6_unknown_camera_escalates
    (ext : Externals) (config : Config) (message : Message) (w : World) :
  (∀ camera, camera ∈ zoneminder_cameras config →
     cam_id camera ≠ camera_id_of_topic config (topic message)) →
  let run := on_message ext config message w in
  let evs := events_of (on_message ext config message) w in
  run.1 = Ok tt
  ∧ file_ops evs = []
  ∧ publishes evs = []
  ∧ w_fs run.2 = w_fs w
  ∧ escalated evs
  ∧ error_logged evs
  ∧ disconnect_called evs.
Proof.
  intros Hnone%lookup_camera_None run evs. subst run evs.
  enough (H : (on_message ext config message w).1 = Ok tt
              ∧ file_ops (events_of (on_message ext config message) w) = []
              ∧ publishes (events_of (on_message ext config message) w) = []
              ∧ w_fs (on_message ext config message w).2 = w_fs w
              ∧ escalated (events_of (on_message ext config message) w)).
  { destruct H as (H1 & H2 & H3 & H4 & H5).
    destruct (escalated_logs_and_disconnects _ H5). done. }
  unfold_prog. rewrite Hnone.
  step; repeat step; read_events;
    (split_and!; try done; show_escalated).
Qed.

(** C6 on the demo installation, for a message of the unknown [cam9]. *)
Lemma C6_unknown_camera_witness :
  (∀ camera, camera ∈ zoneminder_cameras Demo.cfg →
     cam_id camera ≠ camera_id_of_topic Demo.cfg (topic Demo.msg_unknown_camera))
  ∧ publishes (events_of (on_message Demo.ext_ok Demo.cfg Demo.msg_unknown_camera) Demo.w0) = []
  ∧ disconnect_called
      (events_of (on_message Demo.ext_ok Demo.cfg Demo.msg_unknown_camera) Demo.w0).
Proof.
  assert (H : ∀ camera, camera ∈ zoneminder_cameras Demo.cfg →
     cam_id camera ≠ camera_id_of_topic Demo.cfg (topic Demo.msg_unknown_camera)).
  { intros camera Hin.
    apply elem_of_cons in Hin as [->|Hin]; [discriminate|].
    apply elem_of_cons in Hin as [->|Hin]; [discriminate|].
    apply elem_of_nil in Hin. destruct Hin. }
  split; [exact H|].
  destruct (C6_unknown_camera_escalates Demo.ext_ok Demo.cfg
              Demo.msg_unknown_camera Demo.w0 H) as (_ & _ & Hp & _ & _ & _ & Hd).
  split; [exact Hp | exact Hd].
Defined.

(** The causes of an exception in the [try] block, one by one. *)
Lemma body_raises_on_bad_payload ext config message w :
  Py.decode_utf8 (payload message) = None →
  (on_message_body ext config message w).1 = Raise UnicodeDecodeError.
Proof. intros H. unfold_prog. by rewrite H. Qed.

Lemma body_raises_on_unknown_camera ext config message w event_id :
  Py.decode_utf8 (payload message) = Some event_id →
  lookup_camera config (camera_id_of_topic config (topic message)) = None →
  (on_message_body ext config message w).1 = Raise TypeError.
Proof. intros H1 H2. unfold_prog. by rewrite H1, H2. Qed.

Lemma body_raises_on_missing_clip ext config message w event_id camera :
  Py.decode_utf8 (payload message) = Some event_id →
  lookup_camera config (camera_id_of_topic config (topic message)) = Some camera →
  w_fs w !! source_video_path config camera event_id (w_today w) = None →
  (on_message_body ext config message w).1 =
    Raise (if Py.has_nul (source_video_path config camera event_id (w_today w))
              || Py.has_nul (working_copy_path config event_id)
           then ValueError else FileNotFoundError).
Proof.
  unfold source_video_path, working_copy_path. intros H1 H2 H3. unfold_prog.
  rewrite H1, H2. world_simpl. rewrite H3. by destruct (_ || _).
Qed.

(** The [try] block only adds to the trace; when its publish call raised,
    [publish_gif] has logged the error and called [disconnect()]. *)
Lemma on_message_body_trace ext config message w :
  ∃ evs, w_trace (on_message_body ext config message w).2 = w_trace w ++ evs
    ∧ ((∃ channel body, EvClient (Publish channel body) Raised ∈ evs) →
         error_logged evs ∧ disconnect_called evs).
Proof.
  unfold_prog.
  step; repeat step; world_simpl; trace_norm;
    (eexists; split; [first [reflexivity | symmetry; apply app_nil_r]|]);
    first [ intros (? & ? & Hin); refute_elem Hin
          | intros _; split; eexists; find_elem ].
Qed.

(** An [except] clause of the handler: log the error, then [disconnect()]. *)
Lemma escalation_run ext fmt w :
  let run := (logging_error fmt;; disconnect ext) w in
  ∃ r, run.1 = Ok tt ∧ only_events w run.2 (EvLog ERROR fmt :: disconnect_events r).
Proof.
  unfold_prog. unfold only_events. step; world_simpl; trace_norm;
    first [ eexists (Returned _); by split | exists Raised; by split ].
Qed.

(** C2: [on_message] never lets an exception escape: it always returns
    normally.  Whenever the [try] block raises (the payload is not UTF-8, no
    camera matches, the copy fails, [ffmpeg] cannot be started, the removal
    fails), the run ends with the error logged and [disconnect()] called.
    An exception of the publish call is caught inside [publish_gif], which
    logs the error and calls [disconnect()] as well. *)
Theorem C2_on_message_catches_and_disconnects
    (ext : Externals) (config : Config) (message : Message) (w : World) :
  let run := on_message ext config message w in
  let evs := events_of (on_message ext config message) w in
  run.1 = Ok tt
  ∧ ((∃ e, (on_message_body ext config message w).1 = Raise e) →
       escalated evs ∧ error_logged evs ∧ disconnect_called evs)
  ∧ ((∃ channel body, EvClient (Publish channel body) Raised ∈ evs) →
       error_logged evs ∧ disconnect_called evs).
Proof.
  intros run evs. subst run evs.
  destruct (on_message_body_trace ext config message w) as (evs & Hevs & Hpub).
  unfold events_of, on_message, try_except.
  destruct (on_message_body ext config message w) as [[[]|e] w1] eqn:Hbody;
    cbn [fst snd] in *.
  - rewrite Hevs, drop_app_length. split_and!; [done| by intros [? [=]] | done].
  - destruct (escalation_run ext "on message exception" w1) as (r & Hok & Htrace & _).
    cbn zeta in Hok, Htrace. rewrite Htrace, Hevs, <- app_assoc, drop_app_length.
    assert (Hesc : escalated (evs ++ EvLog ERROR "on message exception" :: disconnect_events r)).
    { exists r. by apply suffix_app_r. }
    split_and!; [done| |].
    + intros _. split; [done|]. by apply escalated_logs_and_disconnects.
    + intros _. by apply escalated_logs_and_disconnects.
Qed.

(** C2 on the demo installation, for a payload that is not UTF-8. *)
Lemma C2_on_message_witness :
  (∃ e, (on_message_body Demo.ext_ok Demo.cfg Demo.msg_bad_payload Demo.w0).1 = Raise e)
  ∧ (on_message Demo.ext_ok Demo.cfg Demo.msg_bad_payload Demo.w0).1 = Ok tt
  ∧ disconnect_called
      (events_of (on_message Demo.ext_ok Demo.cfg Demo.msg_bad_payload) Demo.w0).
Proof.
  assert (H : ∃ e, (on_message_body Demo.ext_ok Demo.cfg Demo.msg_bad_payload Demo.w0).1
                   = Raise e).
  { exists UnicodeDecodeError. reflexivity. }
  destruct (C2_on_message_catches_and_disconnects Demo.ext_ok Demo.cfg
              Demo.msg_bad_payload Demo.w0) as (Hok & Hraise & _).
  split; [exact H|]. split; [exact Hok|]. apply (Hraise H).
Defined.

(** C1: take a message whose payload decodes to [event_id] and whose topic
    gives the identifier of the configured [camera]; let the fetch succeed
    (today's clip of the event exists, can be read and is not the working
    copy itself) and let [ffmpeg] return the exit status [rc].  If [rc] is 0
    (and [ffmpeg] left its input in place, so that the removal succeeds),
    the run makes exactly one publish, on
    [<mqtt_base_gifs_topic>/<camera id>] with payload [<event_id>.gif].  If
    [rc] is not 0, the run makes no publish. *)
Theorem C1_on_message_publishes_once
    (ext : Externals) (config : Config) (message : Message) (w : World)
    (event_id : string) (camera : Camera) (f : File) (rc : Z)
    (fs2 : gmap string File) :
  let src := source_video_path config camera event_id (w_today w) in
  let dst := working_copy_path config event_id in
  let evs := events_of (on_message ext config message) w in
  Py.decode_utf8 (payload message) = Some event_id →
  lookup_camera config (camera_id_of_topic config (topic message)) = Some camera →
  w_fs w !! src = Some f →
  f_readable f = true →
  src ≠ dst →
  ffmpeg ext
    (ffmpeg_argv (scale camera) (skip_first_n_secs camera) (max_length_secs camera)
       dst (gif_path config event_id))
    (<[dst := working_copy f]> (w_fs w)) = (Exited rc, fs2) →
  (rc = 0 → is_Some (fs2 !! dst) →
     publishes evs = [(gifs_channel config camera, event_id +:+ ".gif")])
  ∧ (rc ≠ 0 → publishes evs = [])
  ∧ cam_id camera = camera_id_of_topic config (topic message).
Proof.
  intros src dst evs Hdec Hcam Hsrc Hread Hne Htool.
  apply readable_access in Hread.
  subst src dst evs.
  unfold source_video_path, working_copy_path, gif_path, gifs_channel in *.
  split_and!; [| |by apply lookup_camera_Some in Hcam as [_ ?]].
  - intros -> [f2 Hf2]. unfold_prog. rewrite Hdec, Hcam. world_simpl.
    rewrite Hsrc, bool_decide_false, Hread by done. world_simpl.
    rewrite Htool. world_simpl. rewrite Hf2. world_simpl.
    rewrite bool_decide_true by done.
    repeat step; by read_events.
  - intros Hrc. unfold_prog. rewrite Hdec, Hcam. world_simpl.
    rewrite Hsrc, bool_decide_false, Hread by done. world_simpl.
    rewrite Htool. world_simpl.
    destruct (fs2 !! _) eqn:Hf2; world_simpl.
    + rewrite bool_decide_false by done. by read_events.
    + repeat step; by read_events.
Qed.

(** C1 on the demo installation: one publish when [ffmpeg] exits with 0,
    none when it exits with 1. *)
Lemma C1_on_message_witness :
  Py.decode_utf8 (payload Demo.msg) = Some "123"
  ∧ lookup_camera Demo.cfg (camera_id_of_topic Demo.cfg (topic Demo.msg)) = Some Demo.cam1
  ∧ publishes (events_of (on_message Demo.ext_ok Demo.cfg Demo.msg) Demo.w0)
      = [("zm/gifs/cam1", "123.gif")]
  ∧ publishes (events_of (on_message Demo.ext_ffmpeg_fails Demo.cfg Demo.msg) Demo.w0)
      = [].
Proof.
  pose (fs2 := <["/work/123.gif" := Demo.gif]>
                 (<["/work/123.mp4" := working_copy Demo.clip]> (w_fs Demo.w0))).
  assert (Hdec : Py.decode_utf8 (payload Demo.msg) = Some "123")
    by (vm_compute; reflexivity).
  assert (Hcam : lookup_camera Demo.cfg (camera_id_of_topic Demo.cfg (topic Demo.msg))
                 = Some Demo.cam1) by (vm_compute; reflexivity).
  assert (Hsrc : w_fs Demo.w0 !! source_video_path Demo.cfg Demo.cam1 "123" (w_today Demo.w0)
                 = Some Demo.clip) by (vm_compute; reflexivity).
  assert (Hne : source_video_path Demo.cfg Demo.cam1 "123" (w_today Demo.w0)
                ≠ working_copy_path Demo.cfg "123") by (vm_compute; discriminate).
  assert (Hsome : is_Some (fs2 !! working_copy_path Demo.cfg "123"))
    by (vm_compute; eexists; reflexivity).
  split; [exact Hdec|]. split; [exact Hcam|]. split.
  - assert (Htool : ffmpeg Demo.ext_ok
      (ffmpeg_argv (scale Demo.cam1) (skip_first_n_secs Demo.cam1)
         (max_length_secs Demo.cam1) (working_copy_path Demo.cfg "123")
         (gif_path Demo.cfg "123"))
      (<[working_copy_path Demo.cfg "123" := working_copy Demo.clip]> (w_fs Demo.w0))
      = (Exited 0, fs2)) by reflexivity.
    exact (proj1 (C1_on_message_publishes_once Demo.ext_ok Demo.cfg Demo.msg Demo.w0
             "123" Demo.cam1 Demo.clip 0 fs2 Hdec Hcam Hsrc eq_refl Hne Htool)
             eq_refl Hsome).
  - assert (Htool : ffmpeg Demo.ext_ffmpeg_fails
      (ffmpeg_argv (scale Demo.cam1) (skip_first_n_secs Demo.cam1)
         (max_length_secs Demo.cam1) (working_copy_path Demo.cfg "123")
         (gif_path Demo.cfg "123"))
      (<[working_copy_path Demo.cfg "123" := working_copy Demo.clip]> (w_fs Demo.w0))
      = (Exited 1, fs2)) by reflexivity.
    assert (H10 : (1 : Z) ≠ 0) by discriminate.
    exact (proj1 (proj2 (C1_on_message_publishes_once Demo.ext_ffmpeg_fails Demo.cfg
             Demo.msg Demo.w0 "123" Demo.cam1 Demo.clip 1 fs2
             Hdec Hcam Hsrc eq_refl Hne Htool)) H10).
Defined.

(** ** The connection callback *)

Lemma subscribed_reads config l evs :
  subscribed config l evs →
  subscribes evs = map (events_channel config) l
  ∧ map fst (client_calls evs) = map (λ c, Subscribe (events_channel config c)) l
  ∧ Forall (λ cr, cr.2 ≠ Raised) (client_calls evs)
  ∧ flag_writes evs = []
  ∧ ¬ disconnect_called evs.
Proof.
  induction 1 as [|camera rc l evs _ (IH1 & IH2 & IH3 & IH4 & IH5)].
  - split_and!; try by constructor. intros [r Hin]. refute_elem Hin.
  - unfold subscribes, client_calls, flag_writes in *. csimpl.
    rewrite IH1, IH2, IH4. split_and!; try done; [by constructor|].
    intros [r Hin].
    apply elem_of_cons in Hin as [Hin|Hin]; [discriminate|].
    apply elem_of_cons in Hin as [Hin|Hin]; [discriminate|].
    apply IH5. by exists r.
Qed.

Lemma for_each_cons {A} (x : A) l body w :
  for_each (x :: l) body w =
    match body x w with
    | (Ok _, w') => for_each l body w'
    | (Raise e, w') => (Raise e, w')
    end.
Proof. reflexivity. Qed.

(** One turn of the loop of [on_connect]. *)
Lemma subscribe_step ext config camera w :
  let turn := logging_info "subscribing topic %s for camera %s";;
              client ext (Subscribe (mqtt_base_events_topic config +:+ "/" +:+ cam_id camera));;
              mret tt in
  let logged := with_event (EvLog INFO "subscribing topic %s for camera %s") w in
  (∃ rc, turn w = (Ok tt, with_event
                     (EvClient (Subscribe (events_channel config camera)) (Returned rc)) logged))
  ∨ turn w = (Raise ClientError, with_event
                (EvClient (Subscribe (events_channel config camera)) Raised) logged).
Proof.
  unfold events_channel. unfold_prog. step; world_simpl; [left; by eexists | by right].
Qed.

(** The loop of [on_connect]: either every subscribe returns, or the loop
    stops at the first one that raises. *)
Lemma subscribe_loop ext config cams w :
  let run := for_each cams (λ camera,
               logging_info "subscribing topic %s for camera %s";;
               client ext (Subscribe (mqtt_base_events_topic config +:+ "/" +:+ cam_id camera));;
               mret tt) w in
  (∃ pre, run.1 = Ok tt ∧ subscribed config cams pre ∧ only_events w run.2 pre)
  ∨ (∃ done camera rest pre,
       run.1 = Raise ClientError
       ∧ cams = done ++ camera :: rest
       ∧ subscribed config done pre
       ∧ only_events w run.2
           (pre ++ [EvLog INFO "subscribing topic %s for camera %s";
                    EvClient (Subscribe (events_channel config camera)) Raised])).
Proof.
  cbv zeta. revert w. induction cams as [|c l IH]; intros w.
  - left. exists []. split_and!; [done|constructor|apply only_events_refl].
  - rewrite for_each_cons. cbv beta.
    destruct (subscribe_step ext config c w) as [[rc Hs]|Hs]; cbv zeta in Hs;
      rewrite Hs; clear Hs.
    + match goal with
      | |- context [for_each l ?body ?w1] =>
          destruct (IH w1) as [(pre & Hok & Hsub & Hev)
                              |(done & camera & rest & pre & Hraise & Hcams & Hsub & Hev)]
      end.
      * left. eexists. split_and!; [done|by constructor|].
        destruct Hev as (Ht & Hf & Hd & Hc). unfold only_events.
        rewrite Ht, Hf, Hd, Hc. world_simpl. by trace_norm.
      * right. exists (c :: done), camera, rest. eexists. subst l.
        split_and!; [done|done|by constructor|].
        destruct Hev as (Ht & Hf & Hd & Hc). unfold only_events.
        rewrite Ht, Hf, Hd, Hc. world_simpl. by trace_norm.
    + right. exists [], c, l, []. split_and!; [done|done|constructor|].
      unfold only_events. world_simpl. by trace_norm.
Qed.

Lemma bind_run {A B} (m : M A) (f : A → M B) w :
  (m ≫= f) w =
    match m w with
    | (Ok a, w') => f a w'
    | (Raise e, w') => (Raise e, w')
    end.
Proof. reflexivity. Qed.

Lemma on_connect_unfold ext config rc w :
  on_connect ext config rc w =
    match for_each (zoneminder_cameras config) (λ camera,
            logging_info "subscribing topic %s for camera %s";;
            client ext (Subscribe (mqtt_base_events_topic config +:+ "/" +:+ cam_id camera));;
            mret tt)
          (with_event (EvLog INFO "connected to mqtt_server %s  mqtt_port %i") w) with
    | (Ok _, w1) => (Ok tt, with_flag true (with_event (EvSetFlag true) w1))
    | (Raise e, w1) => (logging_error "on_connect exception";; disconnect ext) w1
    end.
Proof.
  unfold on_connect, try_except. rewrite bind_run.
  change (logging_info "connected to mqtt_server %s  mqtt_port %i" w)
    with (Ok tt, with_event (EvLog INFO "connected to mqtt_server %s  mqtt_port %i") w).
  cbv beta iota. rewrite bind_run.
  by destruct (for_each _ _ _) as [[[]|e] w1].
Qed.

(** C5, as the code has it: [on_connect] never raises and, whatever the
    return code of the connection, runs in one of two ways.  Either every
    subscribe returns: then the events of the callback are a log line, for
    each configured camera in order a log line and the subscribe of
    [<mqtt_base_events_topic>/<camera id>] (N subscribes for N cameras), and
    only then the assignment of true to [sub_connected]; no disconnect is
    made.  Or the subscribe of some camera raises: then the cameras after it
    are not subscribed, the error is logged and [disconnect()] is called at
    once, and [sub_connected] is not assigned. *)
Theorem C5_on_connect_subscribes_then_sets_flag
    (ext : Externals) (config : Config) (rc : Z) (w : World) :
  let run := on_connect ext config rc w in
  let evs := events_of (on_connect ext config rc) w in
  let cams := zoneminder_cameras config in
  run.1 = Ok tt
  ∧ ( (∃ pre,
         subscribed config cams pre
         ∧ evs = EvLog INFO "connected to mqtt_server %s  mqtt_port %i"
                   :: pre ++ [EvSetFlag true]
         ∧ subscribes evs = map (events_channel config) cams
         ∧ length (subscribes evs) = length cams
         ∧ flag_writes evs = [true]
         ∧ sub_connected run.2 = true
         ∧ ¬ disconnect_called evs)
    ∨ (∃ done camera rest pre r,
         cams = done ++ camera :: rest
         ∧ subscribed config done pre
         ∧ evs = EvLog INFO "connected to mqtt_server %s  mqtt_port %i"
                   :: pre
                   ++ [EvLog INFO "subscribing topic %s for camera %s";
                       EvClient (Subscribe (events_channel config camera)) Raised;
                       EvLog ERROR "on_connect exception"]
                   ++ disconnect_events r
         ∧ subscribes evs = map (events_channel config) (done ++ [camera])
         ∧ flag_writes evs = []
         ∧ sub_connected run.2 = sub_connected w) ).
Proof.
  intros run evs cams. subst run evs cams.
  unfold events_of. rewrite on_connect_unfold.
  set (w0 := with_event (EvLog INFO "connected to mqtt_server %s  mqtt_port %i") w).
  destruct (subscribe_loop ext config (zoneminder_cameras config) w0)
    as [(pre & Hok & Hsub & Hev)
       |(done & camera & rest & pre & Hraise & Hcams & Hsub & Hev)];
    cbv zeta in *;
    match goal with
    | |- context [for_each ?l ?body w0] => destruct (for_each l body w0) as [r1 w1]
    end; cbn [fst snd] in *; subst r1;
    destruct Hev as (Ht & Hf & Hd & Hc);
    destruct (subscribed_reads _ _ _ Hsub) as (Hs1 & Hs2 & Hs3 & Hs4 & Hs5).
  - split; [done|]. left. exists pre. world_simpl. rewrite Ht. subst w0. world_simpl.
    trace_norm. rewrite drop_app_length.
    unfold subscribes, flag_writes, disconnect_called, client_calls in *.
    csimpl. rewrite !omap_app, Hs1, Hs4. csimpl. rewrite app_nil_r.
    split_and!; try done.
    + by rewrite length_map.
    + intros [r Hin]. apply elem_of_cons in Hin as [Hin|Hin]; [discriminate|].
      apply elem_of_app in Hin as [Hin|Hin]; [|refute_elem Hin].
      apply Hs5. by exists r.
  - destruct (escalation_run ext "on_connect exception" w1)
      as (r & Hok & Ht' & Hf' & Hd' & Hc').
    cbv zeta in *. split; [done|]. right. exists done, camera, rest, pre, r.
    rewrite Ht', Hc', Ht, Hc. subst w0. world_simpl.
    trace_norm. rewrite drop_app_length.
    unfold subscribes, flag_writes, client_calls in *.
    csimpl. rewrite !omap_app, Hs1, Hs4, map_app. csimpl.
    split_and!; try done.
    + by destruct r.
    + by destruct r.
Qed.

Example on_connect_demo :
  events_of (on_connect Demo.ext_ok Demo.cfg 0) Demo.w0 =
    [ EvLog INFO "connected to mqtt_server %s  mqtt_port %i";
      EvLog INFO "subscribing topic %s for camera %s";
      EvClient (Subscribe "zm/events/cam1") (Returned 0);
      EvLog INFO "subscribing topic %s for camera %s";
      EvClient (Subscribe "zm/events/cam2") (Returned 0);
      EvSetFlag true ].
Proof. vm_compute. reflexivity. Qed.

Example on_connect_subscribe_raises :
  let run := on_connect Demo.ext_subscribe_raises Demo.cfg 0 Demo.w0 in
  events_of (on_connect Demo.ext_subscribe_raises Demo.cfg 0) Demo.w0 =
    [ EvLog INFO "connected to mqtt_server %s  mqtt_port %i";
      EvLog INFO "subscribing topic %s for camera %s";
      EvClient (Subscribe "zm/events/cam1") (Returned 0);
      EvLog INFO "subscribing topic %s for camera %s";
      EvClient (Subscribe "zm/events/cam2") Raised;
      EvLog ERROR "on_connect exception";
      EvLog INFO "disconnecting from mqtt_server %s mqtt_port %i";
      EvClient Disconnect (Returned 0) ]
  ∧ sub_connected run.2 = false.
Proof. vm_compute. split; reflexivity. Qed.

(** C5 as the specification words it does not hold: in the demo
    installation, started with the flag cleared, the subscribe of the
    channel of [cam1] is issued while [sub_connected] is still false; the
    flag is set after the last subscribe. *)
Lemma C5_counterexample_subscribe_before_flag :
  ¬ spec_subscribes_when_connected (sub_connected Demo.w0)
      (events_of (on_connect Demo.ext_ok Demo.cfg 0) Demo.w0).
Proof.
  intros H. rewrite on_connect_demo in H.
  specialize (H [ EvLog INFO "connected to mqtt_server %s  mqtt_port %i";
                  EvLog INFO "subscribing topic %s for camera %s" ]
                "zm/events/cam1" (Returned 0)
                [ EvLog INFO "subscribing topic %s for camera %s";
                  EvClient (Subscribe "zm/events/cam2") (Returned 0);
                  EvSetFlag true ] eq_refl).
  discriminate H.
Qed.

(** ** The argument vector of [ffmpeg] *)

(** Below one minute the seek offset is the number of seconds written as
    [HH:MM:SS]. *)
Lemma seek_offset_below_a_minute (n : Z) :
  0 ≤ n < 60 →
  "00:00:" +:+ Py.zfill 2 (Py.str_of_int n) = spec_hhmmss n.
Proof.
  intros Hn.
  assert (Hall : forallb (λ n, bool_decide
                    ("00:00:" +:+ Py.zfill 2 (Py.str_of_int n) = spec_hhmmss n))
                   (seqZ 0 60) = true) by (vm_compute; reflexivity).
  rewrite forallb_forall in Hall.
  specialize (Hall n). rewrite bool_decide_eq_true in Hall.
  apply Hall, list_elem_of_In, elem_of_seqZ. lia.
Qed.

(** C4, at a camera whose [skip_first_n_secs] is 100: the argument vector
    has the fixed frame rate, the lanczos rescale to the width of the
    profile and the duration cap, but its seek offset is [00:00:100], where
    100 seconds written as [HH:MM:SS] are [00:01:40]. *)
Theorem C4_seek_offset_beyond_a_minute :
  let argv := ffmpeg_argv (scale Demo.cam2) (skip_first_n_secs Demo.cam2)
                (max_length_secs Demo.cam2) "/work/7.mp4" "/work/7.gif" in
  skip_first_n_secs Demo.cam2 = 100
  ∧ argv = [ "ffmpeg"; "-stats"; "-i"; "/work/7.mp4"; "-vf";
             "fps=15,scale=320:-1:flags=lanczos"; "-ss"; "00:00:100";
             "-t"; "5"; "-y"; "/work/7.gif" ]
  ∧ spec_hhmmss (skip_first_n_secs Demo.cam2) = "00:01:40"
  ∧ argv !! 7%nat ≠ Some (spec_hhmmss (skip_first_n_secs Demo.cam2)).
Proof. vm_compute. split_and!; try reflexivity. discriminate. Qed.

(** ** The camera identifier of a topic *)

(** C8, at a camera whose identifier [zm/cam1] contains the events topic
    [zm]: [on_connect] subscribes to [zm/zm/cam1]; for a message on that
    channel the code derives [cam1] (both occurrences of [zm/] are removed)
    where stripping the leading prefix once gives [zm/cam1]; the camera is
    then not found and nothing is published. *)
Theorem C8_camera_id_removes_every_occurrence :
  subscribes (events_of (on_connect Demo.ext_ok Demo.nested_cfg 0) Demo.w0)
    = [topic Demo.msg_nested]
  ∧ camera_id_of_topic Demo.nested_cfg (topic Demo.msg_nested) = "cam1"
  ∧ spec_strip_prefix (mqtt_base_events_topic Demo.nested_cfg +:+ "/")
      (topic Demo.msg_nested) = "zm/cam1"
  ∧ cam_id Demo.nested_cam = "zm/cam1"
  ∧ lookup_camera Demo.nested_cfg
      (camera_id_of_topic Demo.nested_cfg (topic Demo.msg_nested)) = None
  ∧ publishes (events_of (on_message Demo.ext_ok Demo.nested_cfg Demo.msg_nested) Demo.w0)
      = [].
Proof. vm_compute. split_and!; reflexivity. Qed.

(** For a camera whose identifier has no slash, the code and the
    specification agree: the channel [on_connect] subscribes to is mapped
    back to the identifier. *)
Lemma append_cons a s t : String a s +:+ t = String a (s +:+ t).
Proof. reflexivity. Qed.

Lemma append_nil_l s : EmptyString +:+ s = s.
Proof. reflexivity. Qed.

Lemma append_assoc (a b c : string) : a +:+ b +:+ c = (a +:+ b) +:+ c.
Proof.
  induction a as [|x a IH]; [done|]. rewrite !append_cons. by f_equal.
Qed.

Lemma has_char_app c s1 s2 : has_char c (s1 +:+ s2) = has_char c s1 || has_char c s2.
Proof. induction s1 as [|a s1 IH]; simpl; [done|]. by rewrite IH, orb_assoc. Qed.

Lemma prefix_has_char c old t :
  has_char c old = true → String.prefix old t = true → has_char c t = true.
Proof.
  revert t. induction old as [|a old IH]; intros [|b t]; simpl; try done.
  destruct (Ascii.ascii_dec a b) as [->|]; [|done].
  intros [Ha|Ho]%orb_true_iff Hp; apply orb_true_iff; [by left|right; by apply IH].
Qed.

Lemma prefix_app old s : String.prefix old (old +:+ s) = true.
Proof.
  induction old as [|a old IH]; simpl; [by destruct s|].
  by destruct (Ascii.ascii_dec a a).
Qed.

Lemma replace_go_without_char c old new s :
  has_char c old = true → has_char c s = false → Py.replace_go old new 0 s = s.
Proof.
  intros Hold. induction s as [|a s IH]; intros Hs; [done|].
  cbn [Py.replace_go].
  destruct (String.prefix old (String a s)) eqn:Hp.
  - apply (prefix_has_char c) in Hp; [congruence|done].
  - simpl in Hs. apply orb_false_iff in Hs as [_ Hs]. by rewrite IH.
Qed.

Lemma replace_go_skip old new t s :
  Py.replace_go old new (String.length t) (t +:+ s) = Py.replace_go old new 0 s.
Proof. induction t as [|a t IH]; simpl; [done|apply IH]. Qed.

Lemma replace_removes_prefix old s :
  old ≠ EmptyString →
  Py.replace old EmptyString (old +:+ s) = Py.replace old EmptyString s.
Proof.
  destruct old as [|a old]; [done|]. intros _. unfold Py.replace.
  change (String a old +:+ s) with (String a (old +:+ s)).
  cbn [Py.replace_go].
  change (String a (old +:+ s)) with (String a old +:+ s).
  rewrite prefix_app. cbn [String.length String.append].
  replace (S (String.length old) - 1)%nat with (String.length old) by lia.
  apply replace_go_skip.
Qed.

Lemma strip_prefix_app p s : strip_prefix p (p +:+ s) = Some s.
Proof.
  induction p as [|a p IH]; simpl; [done|]. by rewrite bool_decide_true.
Qed.

Lemma camera_id_round_trip config camera :
  has_char "/" (cam_id camera) = false →
  camera_id_of_topic config (events_channel config camera) = cam_id camera
  ∧ spec_strip_prefix (mqtt_base_events_topic config +:+ "/")
      (events_channel config camera) = cam_id camera.
Proof.
  intros Hid. unfold camera_id_of_topic, events_channel, spec_strip_prefix.
  rewrite append_assoc, strip_prefix_app. split; [|done].
  rewrite replace_removes_prefix.
  - destruct (mqtt_base_events_topic config +:+ "/") as [|a old] eqn:Hold.
    + by destruct (mqtt_base_events_topic config).
    + unfold Py.replace. apply (replace_go_without_char "/"); [|done].
      rewrite <- Hold, has_char_app. apply orb_true_iff. by right.
  - by destruct (mqtt_base_events_topic config).
Qed.

(** ** One argument of [ffmpeg] per parameter of the profile *)

Lemma length_append s t :
  String.length (s +:+ t) = (String.length s + String.length t)%nat.
Proof. induction s as [|a s IH]; [done|]. rewrite append_cons. simpl. by rewrite IH. Qed.

Lemma append_inj_r t s1 s2 : s1 +:+ t = s2 +:+ t → s1 = s2.
Proof.
  revert s2. induction s1 as [|a s1 IH]; intros [|b s2] H.
  - done.
  - apply (f_equal String.length) in H. rewrite !length_append in H. simpl in H. lia.
  - apply (f_equal String.length) in H. rewrite !length_append in H. simpl in H. lia.
  - rewrite !append_cons in H. injection H as -> H. f_equal. by apply IH.
Qed.

(** The decimal form of a positive number starts with a digit other than 0. *)
Lemma pretty_N_go_head x s :
  (0 < x)%N →
  ∃ c rest, pretty_N_go x s = String c rest ∧ c ≠ "0"%char
            ∧ (String.length s ≤ String.length rest)%nat.
Proof.
  revert s. induction (N.lt_wf_0 x) as [x _ IH]; intros s Hx.
  rewrite pretty_N_go_step by done.
  assert (x < 10 ∨ 10 ≤ x)%N as [Hs|Hl] by lia.
  - rewrite N.div_small, pretty_N_go_0, N.mod_small by done.
    exists (pretty_N_char x), s. split_and!; [done| |done].
    assert (x = 1 ∨ x = 2 ∨ x = 3 ∨ x = 4 ∨ x = 5 ∨ x = 6
            ∨ x = 7 ∨ x = 8 ∨ x = 9)%N as Hd by lia.
    by destruct Hd as [->|[->|[->|[->|[->|[->|[->|[->| ->]]]]]]]].
  - destruct (IH (x `div` 10)%N) with (s := String (pretty_N_char (x `mod` 10)) s)
      as (c & rest & Heq & Hc & Hlen).
    { apply N.div_lt; lia. }
    { apply N.div_str_pos; lia. }
    exists c, rest. rewrite Heq. split_and!; [done|done|]. simpl in Hlen. lia.
Qed.

Lemma pretty_N_pos p : pretty (Npos p) = pretty_N_go (Npos p) EmptyString.
Proof. unfold pretty, pretty_N. by case_decide. Qed.

(** Outside 0..9 the decimal form has at least two characters and does not
    start with 0. *)
Lemma pretty_Z_outside_digits (z : Z) :
  z < 0 ∨ 10 ≤ z →
  ∃ c rest, pretty z = String c rest ∧ c ≠ "0"%char ∧ rest ≠ EmptyString.
Proof.
  intros Hz. destruct z as [|p|p]; [lia| |].
  - change (pretty (Z.pos p)) with (pretty (Npos p)). rewrite pretty_N_pos.
    rewrite pretty_N_go_step by done.
    destruct (pretty_N_go_head (N.pos p `div` 10)
                (String (pretty_N_char (N.pos p `mod` 10)) EmptyString))
      as (c & rest & Heq & Hc & Hlen).
    { apply N.div_str_pos. lia. }
    exists c, rest. split_and!; [done|done|]. intros ->. simpl in Hlen. lia.
  - change (pretty (Z.neg p)) with (String "-"%char (pretty (Npos p))).
    rewrite pretty_N_pos.
    destruct (pretty_N_go_head (N.pos p) EmptyString) as (c & rest & Heq & _ & _);
      [done|].
    exists "-"%char, (pretty_N_go (N.pos p) EmptyString).
    split_and!; [done|done|]. by rewrite Heq.
Qed.

Lemma zfill2_long c rest :
  rest ≠ EmptyString → Py.zfill 2 (String c rest) = String c rest.
Proof. by destruct rest. Qed.

Lemma zfill2_digit (z : Z) :
  0 ≤ z ≤ 9 → Py.zfill 2 (pretty z) = String "0"%char (pretty z).
Proof.
  intros Hz.
  assert (Hall : forallb (λ z, bool_decide
                    (Py.zfill 2 (pretty z) = String "0"%char (pretty z)))
                   (seqZ 0 10) = true) by (vm_compute; reflexivity).
  rewrite forallb_forall in Hall. specialize (Hall z).
  rewrite bool_decide_eq_true in Hall.
  apply Hall, list_elem_of_In, elem_of_seqZ. lia.
Qed.

(** Two numbers of seconds with the same two-digit form are equal. *)
Lemma zfill2_str_of_int_inj (a b : Z) :
  Py.zfill 2 (Py.str_of_int a) = Py.zfill 2 (Py.str_of_int b) → a = b.
Proof.
  unfold Py.str_of_int. intros H.
  destruct (decide (0 ≤ a ≤ 9)) as [Ha|Ha], (decide (0 ≤ b ≤ 9)) as [Hb|Hb].
  - rewrite !zfill2_digit in H by done. injection H as H. by apply (inj pretty).
  - rewrite zfill2_digit in H by done.
    destruct (pretty_Z_outside_digits b) as (c & rest & Hp & Hc & Hr); [lia|].
    rewrite Hp, zfill2_long in H by done. injection H as H _. congruence.
  - rewrite (zfill2_digit b) in H by done.
    destruct (pretty_Z_outside_digits a) as (c & rest & Hp & Hc & Hr); [lia|].
    rewrite Hp, zfill2_long in H by done. injection H as H _. congruence.
  - destruct (pretty_Z_outside_digits a) as (c & rest & Hp & Hc & Hr); [lia|].
    destruct (pretty_Z_outside_digits b) as (c' & rest' & Hp' & Hc' & Hr'); [lia|].
    apply (inj pretty). rewrite Hp, Hp' in *. by rewrite !zfill2_long in H.
Qed.

(** X17: the argument vector is a function of the profile in which the scale
    feeds the filter argument (position 5) only, [skip_first_n_secs] the
    seek offset (position 7) only and [max_length_secs] the duration
    (position 9) only; a change of a parameter changes its argument. *)
Lemma ffmpeg_argv_one_argument_per_parameter
    (scale scale' skip skip' maxlen maxlen' : Z) (input output : string) :
  let argv := ffmpeg_argv scale skip maxlen input output in
  (∀ n, n ≠ 5%nat → ffmpeg_argv scale' skip maxlen input output !! n = argv !! n)
  ∧ (scale' ≠ scale → ffmpeg_argv scale' skip maxlen input output !! 5%nat ≠ argv !! 5%nat)
  ∧ (∀ n, n ≠ 7%nat → ffmpeg_argv scale skip' maxlen input output !! n = argv !! n)
  ∧ (skip' ≠ skip → ffmpeg_argv scale skip' maxlen input output !! 7%nat ≠ argv !! 7%nat)
  ∧ (∀ n, n ≠ 9%nat → ffmpeg_argv scale skip maxlen' input output !! n = argv !! n)
  ∧ (maxlen' ≠ maxlen → ffmpeg_argv scale skip maxlen' input output !! 9%nat ≠ argv !! 9%nat).
Proof.
  intros argv. subst argv. unfold ffmpeg_argv.
  split_and!.
  - intros n Hn. do 12 (destruct n as [|n]; [done|]). done.
  - intros Hne [= H]. apply Hne. rewrite !append_nil_l in H.
    apply append_inj_r in H. by apply (inj pretty).
  - intros n Hn. do 12 (destruct n as [|n]; [done|]). done.
  - intros Hne [= H]. rewrite ?append_nil_l in H. by apply Hne, zfill2_str_of_int_inj.
  - intros n Hn. do 12 (destruct n as [|n]; [done|]). done.
  - intros Hne [= H]. by apply Hne, (inj pretty).
Qed.

(** ** Runs of the demo installation *)

(** The publish call raises: one publish was attempted, the error is
    logged and the client is told to disconnect. *)
Example publish_raises_demo :
  let run := on_message Demo.ext_publish_raises Demo.cfg Demo.msg Demo.w0 in
  run.1 = Ok tt
  ∧ client_calls (w_trace run.2) =
      [ (Publish "zm/gifs/cam1" "123.gif", Raised); (Disconnect, Returned 0) ].
Proof. vm_compute. split; reflexivity. Qed.

(** The client returns the code 4 without raising: [publish_gif] still
    returns [True]. *)
Example publish_rc4_demo :
  (publish_gif Demo.ext_publish_rc4 Demo.cfg "cam1" "123.gif" Demo.w0).1 = Ok (Some true).
Proof. reflexivity. Qed.

(** [ffmpeg] cannot be started: the working copy stays in the working
    folder, nothing is published, the client is told to disconnect. *)
Example no_ffmpeg_demo :
  let run := on_message Demo.ext_no_ffmpeg Demo.cfg Demo.msg Demo.w0 in
  run.1 = Ok tt
  ∧ w_fs run.2 !! "/work/123.mp4" = Some Demo.clip
  ∧ client_calls (w_trace run.2) = [ (Disconnect, Returned 0) ].
Proof. vm_compute. split_and!; reflexivity. Qed.

(** [ffmpeg] exits with status 1: the working copy is removed, nothing is
    published and, no exception being raised, the client is not disconnected. *)
Example ffmpeg_fails_demo :
  let run := on_message Demo.ext_ffmpeg_fails Demo.cfg Demo.msg Demo.w0 in
  run.1 = Ok tt
  ∧ w_fs run.2 !! "/work/123.mp4" = None
  ∧ client_calls (w_trace run.2) = [].
Proof. vm_compute. split_and!; reflexivity. Qed.

(** No clip of the event in today's folder: the copy is attempted, fails,
    and the handler escalates. *)
Example missing_clip_demo :
  let run := on_message Demo.ext_ok Demo.cfg Demo.msg Demo.w_empty in
  run.1 = Ok tt
  ∧ file_ops (w_trace run.2) = [ EvCopy "/zm/2026-03-07/cam1-123.mp4" "/work/123.mp4" ]
  ∧ client_calls (w_trace run.2) = [ (Disconnect, Returned 0) ]
  ∧ w_fs run.2 = ∅.
Proof. vm_compute. split_and!; reflexivity. Qed.

(** * Further properties of the code *)

(** ** Connecting and disconnecting *)

Lemma only_events_trans w1 w2 w3 a b :
  only_events w1 w2 a → only_events w2 w3 b → only_events w1 w3 (a ++ b).
Proof.
  unfold only_events. intros (Ht & Hf & Hd & Hc) (Ht' & Hf' & Hd' & Hc').
  rewrite Ht', Ht, Hf', Hf, Hd', Hd, Hc', Hc, app_assoc. done.
Qed.

(** X1: [disconnect()] never raises.  It makes exactly one call on the
    client, [disconnect], and logs an error when that call raised; it leaves
    the files and [sub_connected] as they were: the flag is cleared by the
    callback [on_disconnect] only. *)
Theorem X1_disconnect_swallows_exceptions (ext : Externals) (w : World) :
  let run := disconnect ext w in
  let evs := events_of (disconnect ext) w in
  run.1 = Ok tt
  ∧ (∃ r, client_calls evs = [(Disconnect, r)]
          ∧ (r = Raised ↔ log_errors evs = ["disconnect exception"])
          ∧ (r ≠ Raised ↔ log_errors evs = []))
  ∧ flag_writes evs = []
  ∧ w_fs run.2 = w_fs w
  ∧ sub_connected run.2 = sub_connected w.
Proof.
  intros run evs. subst run evs. unfold_prog. step; read_events.
  - split_and!; try done. eexists. split_and!; [done|split; done|split; done].
  - split_and!; try done. exists Raised. split_and!; [done|split; done|split; done].
Qed.

(** What [connect()] does, for the lemmas below: it never raises, it keeps
    the files and the flag, and it calls [connect_async] once. *)
Lemma connect_run ext config w :
  ∃ evs, (connect ext config w).1 = Ok tt
    ∧ only_events w (connect ext config w).2 evs
    ∧ connect_asyncs evs = [(mqtt_server config, mqtt_port config)]
    ∧ sleeps evs = []
    ∧ flag_writes evs = [].
Proof.
  unfold_prog. unfold only_events.
  step; repeat step; world_simpl; trace_norm; by eexists.
Qed.

(** X2: [connect()] never raises and does not touch [sub_connected].  Its
    first call on the client is [connect_async(mqtt_server, mqtt_port)];
    [loop_start] is called only when that call returned; when either of the
    two raises, [disconnect()] follows at once and nothing else is called. *)
Theorem X2_connect_never_raises (ext : Externals) (config : Config) (w : World) :
  let run := connect ext config w in
  let evs := events_of (connect ext config) w in
  run.1 = Ok tt
  ∧ sub_connected run.2 = sub_connected w
  ∧ flag_writes evs = []
  ∧ ∃ r, head (client_calls evs)
           = Some (ConnectAsync (mqtt_server config) (mqtt_port config), r)
      ∧ match r with
        | Raised => ∃ r3, tail (client_calls evs) = [(Disconnect, r3)]
        | Returned _ =>
            ∃ r2, (r2 ≠ Raised ∧ tail (client_calls evs) = [(LoopStart, r2)])
                  ∨ (r2 = Raised
                     ∧ ∃ r3, tail (client_calls evs) = [(LoopStart, r2); (Disconnect, r3)])
        end.
Proof.
  intros run evs. subst run evs. unfold_prog.
  step; repeat step; read_events; split_and!; try done;
    eexists; (split; [reflexivity|]); simpl;
    first [ by eexists
          | eexists (Returned _); left; by split
          | exists Raised; right; split; [done|by eexists] ].
Qed.

(** X3: [on_disconnect] clears [sub_connected] whatever the return code, and
    before it stops the loop: the flag is cleared even when [loop_stop]
    raises, and that exception, which nothing catches, is the only way the
    callback fails.  The line about an unexpected disconnection is logged
    exactly for a return code other than 0. *)
Theorem X3_on_disconnect_clears_flag_first (ext : Externals) (rc : Z) (w : World) :
  let run := on_disconnect ext rc w in
  let evs := events_of (on_disconnect ext rc) w in
  sub_connected run.2 = false
  ∧ w_fs run.2 = w_fs w
  ∧ (∃ r pre, evs = pre ++ [EvSetFlag false; EvClient LoopStop r]
              ∧ client_calls pre = []
              ∧ (r = Raised ↔ run.1 = Raise ClientError)
              ∧ (r ≠ Raised ↔ run.1 = Ok tt))
  ∧ (EvLog INFO "unexpected disconnection." ∈ evs ↔ rc ≠ 0).
Proof.
  intros run evs. subst run evs. unfold_prog.
  step; repeat step; read_events; split_and!; try done.
  all: try (eexists _, [_; _]; split_and!; [reflexivity|done|split; done|split; done]).
  all: try (eexists _, [_]; split_and!; [reflexivity|done|split; done|split; done]).
  - split; [done|]. intros _. find_elem.
  - split; [done|]. intros _. find_elem.
  - split; [|done]. intros Hin. refute_elem Hin.
  - split; [|done]. intros Hin. refute_elem Hin.
Qed.

(** ** The loop of [main] *)

Lemma main_loop_succ ext config k w :
  main_loop ext config (S k) w =
    match main_loop_iteration ext config w with
    | (Ok _, w') => main_loop ext config k w'
    | (Raise e, w') => (Raise e, w')
    end.
Proof. reflexivity. Qed.

(** A turn with the flag cleared: [connect()], then the sleep. *)
Lemma main_loop_turn_disconnected ext config w :
  sub_connected w = false →
  ∃ evs, (main_loop_iteration ext config w).1 = Ok tt
    ∧ only_events w (main_loop_iteration ext config w).2 evs
    ∧ connect_asyncs evs = [(mqtt_server config, mqtt_port config)]
    ∧ sleeps evs = [10].
Proof.
  intros Hc. destruct (connect_run ext config w) as (evs & Hok & Hev & Hca & Hsl & _).
  unfold main_loop_iteration, get_sub_connected, time_sleep, emit.
  rewrite bind_run. cbv beta iota. rewrite Hc. cbn [negb]. rewrite bind_run.
  destruct (connect ext config w) as [r w1]. cbn [fst snd] in *. subst r.
  exists (evs ++ [EvSleep 10]). split_and!; [done| | |].
  - apply (only_events_trans _ w1); [done|]. by unfold only_events.
  - unfold connect_asyncs in *. by rewrite omap_app, Hca.
  - unfold sleeps in *. by rewrite omap_app, Hsl.
Qed.

(** With the flag set, [turns] turns only sleep. *)
Lemma main_loop_idle ext config turns w :
  sub_connected w = true →
  (main_loop ext config turns w).1 = Ok tt
  ∧ only_events w (main_loop ext config turns w).2 (replicate turns (EvSleep 10)).
Proof.
  revert w. induction turns as [|k IH]; intros w Hc.
  - split; [done|]. apply only_events_refl.
  - rewrite main_loop_succ, (main_loop_connected ext config w Hc).
    destruct (IH (with_event (EvSleep 10) w) Hc) as (Hok & Hev).
    split; [done|]. change (replicate (S k) (EvSleep 10))
      with ([EvSleep 10] ++ replicate k (EvSleep 10)).
    apply (only_events_trans _ (with_event (EvSleep 10) w)); [|done].
    by unfold only_events.
Qed.

(** X4: while [sub_connected] is true the loop of [main] does nothing but
    sleep: [turns] turns leave [turns] sleeps of 10 seconds in the trace, no
    call on the client, and the flag still true. *)
Theorem X4_main_loop_idle_while_connected
    (ext : Externals) (config : Config) (turns : nat) (w : World) :
  sub_connected w = true →
  let run := main_loop ext config turns w in
  run.1 = Ok tt
  ∧ events_of (main_loop ext config turns) w = replicate turns (EvSleep 10)
  ∧ sub_connected run.2 = true
  ∧ w_fs run.2 = w_fs w.
Proof.
  intros Hc. cbv zeta.
  destruct (main_loop_idle ext config turns w Hc) as (Hok & Ht & Hf & _ & Hflag).
  split_and!; try done.
  - by apply events_of_ext.
  - by rewrite Hflag.
Qed.

Lemma X4_main_loop_idle_witness :
  sub_connected (on_subscribe 1 Demo.w0).2 = true
  ∧ events_of (main_loop Demo.ext_ok Demo.cfg 3) (on_subscribe 1 Demo.w0).2
      = [EvSleep 10; EvSleep 10; EvSleep 10].
Proof.
  split; [reflexivity|].
  apply (X4_main_loop_idle_while_connected Demo.ext_ok Demo.cfg 3
           (on_subscribe 1 Demo.w0).2 eq_refl).
Defined.

(** With the flag cleared, every turn calls [connect()] and sleeps. *)
Lemma main_loop_reconnecting ext config turns w :
  sub_connected w = false →
  ∃ evs, (main_loop ext config turns w).1 = Ok tt
    ∧ only_events w (main_loop ext config turns w).2 evs
    ∧ connect_asyncs evs = replicate turns (mqtt_server config, mqtt_port config)
    ∧ sleeps evs = replicate turns 10.
Proof.
  revert w. induction turns as [|k IH]; intros w Hc.
  - exists []. split_and!; try done. apply only_events_refl.
  - rewrite main_loop_succ.
    destruct (main_loop_turn_disconnected ext config w Hc) as (evs1 & Hok1 & Hev1 & Hca1 & Hsl1).
    destruct (main_loop_iteration ext config w) as [r w1]. cbn [fst snd] in *. subst r.
    assert (Hc1 : sub_connected w1 = false).
    { destruct Hev1 as (_ & _ & _ & ->). done. }
    destruct (IH w1 Hc1) as (evs2 & Hok2 & Hev2 & Hca2 & Hsl2).
    exists (evs1 ++ evs2). split_and!; [done| | |].
    + by apply (only_events_trans _ w1).
    + unfold connect_asyncs in *. by rewrite omap_app, Hca1, Hca2.
    + unfold sleeps in *. by rewrite omap_app, Hsl1, Hsl2.
Qed.

(** X5: while [sub_connected] is false and no callback sets it, the loop of
    [main] calls [connect()] once per turn, with no limit and no growing
    delay: [turns] turns make exactly [turns] calls of
    [connect_async(mqtt_server, mqtt_port)] and [turns] sleeps of 10
    seconds.  The loop never raises and never sets the flag itself. *)
Theorem X5_main_loop_reconnects_every_turn
    (ext : Externals) (config : Config) (turns : nat) (w : World) :
  sub_connected w = false →
  let run := main_loop ext config turns w in
  let evs := events_of (main_loop ext config turns) w in
  run.1 = Ok tt
  ∧ connect_asyncs evs = replicate turns (mqtt_server config, mqtt_port config)
  ∧ sleeps evs = replicate turns 10
  ∧ sub_connected run.2 = false
  ∧ w_fs run.2 = w_fs w.
Proof.
  intros Hc. cbv zeta.
  destruct (main_loop_reconnecting ext config turns w Hc)
    as (evs & Hok & (Ht & Hf & _ & Hflag) & Hca & Hsl).
  rewrite (events_of_ext _ _ _ Ht). split_and!; try done. by rewrite Hflag.
Qed.

Lemma X5_main_loop_reconnects_witness :
  sub_connected Demo.w0 = false
  ∧ connect_asyncs (events_of (main_loop Demo.ext_ok Demo.cfg 3) Demo.w0)
      = [("broker", 1883); ("broker", 1883); ("broker", 1883)].
Proof.
  split; [reflexivity|].
  apply (X5_main_loop_reconnects_every_turn Demo.ext_ok Demo.cfg 3 Demo.w0 eq_refl).
Defined.

(** ** What [on_message] does and never does *)

(** Whatever happens to a message, the handler only adds to the trace,
    keeps the flag and the date, and calls nothing on the client but
    [publish] and [disconnect]. *)
Lemma on_message_keeps ext config message w :
  ∃ evs, (on_message ext config message w).1 = Ok tt
    ∧ w_trace (on_message ext config message w).2 = w_trace w ++ evs
    ∧ sub_connected (on_message ext config message w).2 = sub_connected w
    ∧ flag_writes evs = []
    ∧ forallb (λ cr, publish_or_disconnect cr.1) (client_calls evs) = true
    ∧ (length (publishes evs) ≤ 1)%nat
    ∧ (length (publishes evs) + length (disconnects evs) ≤ 2)%nat
    ∧ (length (disconnects evs) ≤ 1)%nat.
Proof.
  unfold_prog.
  step; repeat step; world_simpl; trace_norm;
    (eexists; split_and!;
       [ done
       | first [reflexivity | symmetry; apply app_nil_r]
       | done
       | done
       | done
       | simpl; lia
       | simpl; lia
       | simpl; lia ]).
Qed.

(** X6: on every message, whatever goes wrong, [on_message] returns
    normally without assigning [sub_connected]; the only calls it makes on
    the client are [publish] and [disconnect], at most one of each. *)
Theorem X6_on_message_leaves_the_flag
    (ext : Externals) (config : Config) (message : Message) (w : World) :
  let run := on_message ext config message w in
  let evs := events_of (on_message ext config message) w in
  run.1 = Ok tt
  ∧ sub_connected run.2 = sub_connected w
  ∧ flag_writes evs = []
  ∧ forallb (λ cr, publish_or_disconnect cr.1) (client_calls evs) = true
  ∧ (length (publishes evs) ≤ 1)%nat
  ∧ (length (disconnects evs) ≤ 1)%nat.
Proof.
  intros run evs. subst run evs.
  destruct (on_message_keeps ext config message w)
    as (evs & Hok & Ht & Hflag & Hw & Hcalls & Hlen & Hd).
  rewrite (events_of_ext _ _ _ Ht). split_and!; try done. lia.
Qed.

(** X7: a failure escalation alone does not make the loop of [main]
    reconnect.  [disconnect()] leaves [sub_connected] as it was, so after
    any message handled while the flag is true the following turns of the
    loop only sleep; [connect()] is called again only once the callback
    [on_disconnect] has cleared the flag. *)
Theorem X7_no_reconnect_before_on_disconnect
    (ext : Externals) (config : Config) (message : Message) (turns : nat)
    (rc : Z) (w : World) :
  sub_connected w = true →
  let handled := (on_message ext config message w).2 in
  events_of (main_loop ext config turns) handled = replicate turns (EvSleep 10)
  ∧ connect_asyncs (events_of (main_loop ext config turns) (on_disconnect ext rc handled).2)
      = replicate turns (mqtt_server config, mqtt_port config).
Proof.
  intros Hc handled. subst handled.
  destruct (on_message_keeps ext config message w) as (evs & _ & _ & Hflag & _).
  split.
  - apply events_of_ext.
    destruct (main_loop_idle ext config turns (on_message ext config message w).2)
      as (_ & Ht & _); [by rewrite Hflag|done].
  - destruct (main_loop_reconnecting ext config turns
                (on_disconnect ext rc (on_message ext config message w).2).2)
      as (evs' & _ & (Ht & _) & Hca & _); [apply on_disconnect_clears|].
    by rewrite (events_of_ext _ _ _ Ht).
Qed.

Lemma X7_no_reconnect_witness :
  sub_connected (on_subscribe 1 Demo.w_empty).2 = true
  ∧ events_of (main_loop Demo.ext_ok Demo.cfg 2)
      (on_message Demo.ext_ok Demo.cfg Demo.msg (on_subscribe 1 Demo.w_empty).2).2
    = [EvSleep 10; EvSleep 10].
Proof.
  split; [reflexivity|].
  apply (X7_no_reconnect_before_on_disconnect Demo.ext_ok Demo.cfg Demo.msg 2 0
           (on_subscribe 1 Demo.w_empty).2 eq_refl).
Defined.

(** X8: for a message whose payload decodes and whose camera is found, the
    file operations of [on_message] are a beginning of: the copy of today's
    clip to the working copy, the call of [ffmpeg] on the working copy, the
    removal of the working copy.  So [ffmpeg] is never started without the
    copy having been attempted, and nothing but the working copy is ever
    written or removed by the handler.  When the run publishes, all three
    file operations are among the events that come before the first
    publish, and no file operation comes after it. *)
Theorem X8_on_message_file_operations_in_order
    (ext : Externals) (config : Config) (message : Message) (w : World)
    (event_id : string) (camera : Camera) :
  Py.decode_utf8 (payload message) = Some event_id →
  lookup_camera config (camera_id_of_topic config (topic message)) = Some camera →
  let evs := events_of (on_message ext config message) w in
  let dst := working_copy_path config event_id in
  let all := [ EvCopy (source_video_path config camera event_id (w_today w)) dst;
               EvExec (ffmpeg_argv (scale camera) (skip_first_n_secs camera)
                         (max_length_secs camera) dst (gif_path config event_id));
               EvRemove dst ] in
  (∃ k, file_ops evs = take k all)
  ∧ (publishes evs ≠ [] →
       file_ops (before_publish evs) = all ∧ file_ops evs = all).
Proof.
  intros Hdec Hcam evs dst all. subst evs dst all.
  unfold source_video_path, working_copy_path, gif_path.
  unfold_prog. rewrite Hdec, Hcam.
  step; repeat step; read_events;
    (split;
       [ first [ by exists 1%nat | by exists 2%nat | by exists 3%nat ]
       | first [ intros Hp; exfalso; by apply Hp | intros _; by split ] ]).
Qed.

Lemma X8_on_message_file_operations_witness :
  Py.decode_utf8 (payload Demo.msg) = Some "123"
  ∧ lookup_camera Demo.cfg (camera_id_of_topic Demo.cfg (topic Demo.msg)) = Some Demo.cam1
  ∧ publishes (events_of (on_message Demo.ext_ok Demo.cfg Demo.msg) Demo.w0) ≠ []
  ∧ file_ops (before_publish (events_of (on_message Demo.ext_ok Demo.cfg Demo.msg) Demo.w0))
    = [ EvCopy "/zm/2026-03-07/cam1-123.mp4" "/work/123.mp4";
        EvExec (ffmpeg_argv 480 2 8 "/work/123.mp4" "/work/123.gif");
        EvRemove "/work/123.mp4" ]
  ∧ ∃ k, file_ops (events_of (on_message Demo.ext_no_ffmpeg Demo.cfg Demo.msg) Demo.w0)
         = take k [ EvCopy "/zm/2026-03-07/cam1-123.mp4" "/work/123.mp4";
                    EvExec (ffmpeg_argv 480 2 8 "/work/123.mp4" "/work/123.gif");
                    EvRemove "/work/123.mp4" ].
Proof.
  assert (Hdec : Py.decode_utf8 (payload Demo.msg) = Some "123")
    by (vm_compute; reflexivity).
  assert (Hcam : lookup_camera Demo.cfg (camera_id_of_topic Demo.cfg (topic Demo.msg))
                 = Some Demo.cam1) by (vm_compute; reflexivity).
  assert (Hpub : publishes (events_of (on_message Demo.ext_ok Demo.cfg Demo.msg) Demo.w0)
                 ≠ []) by (vm_compute; discriminate).
  split; [exact Hdec|]. split; [exact Hcam|]. split; [exact Hpub|]. split.
  - destruct (X8_on_message_file_operations_in_order Demo.ext_ok Demo.cfg
                Demo.msg Demo.w0 "123" Demo.cam1 Hdec Hcam) as [_ Horder].
    exact (proj1 (Horder Hpub)).
  - destruct (X8_on_message_file_operations_in_order Demo.ext_no_ffmpeg Demo.cfg
                Demo.msg Demo.w0 "123" Demo.cam1 Hdec Hcam) as [[k Hk] _].
    exists k. exact Hk.
Defined.

(** X9: [on_message] publishes only after a successful conversion.  If a
    run makes any publish at all, then the payload decoded to some event
    identifier, a camera was found, today's clip was there and readable,
    [ffmpeg] returned the exit status 0 and left the working copy to be
    removed; and the run made that one publish only, of [<event id>.gif] on
    the channel of the camera. *)
Theorem X9_on_message_publish_needs_exit_0
    (ext : Externals) (config : Config) (message : Message) (w : World) :
  let evs := events_of (on_message ext config message) w in
  publishes evs ≠ [] →
  ∃ event_id camera f fs2,
    Py.decode_utf8 (payload message) = Some event_id
    ∧ lookup_camera config (camera_id_of_topic config (topic message)) = Some camera
    ∧ w_fs w !! source_video_path config camera event_id (w_today w) = Some f
    ∧ f_readable f = true
    ∧ ffmpeg ext
        (ffmpeg_argv (scale camera) (skip_first_n_secs camera) (max_length_secs camera)
           (working_copy_path config event_id) (gif_path config event_id))
        (<[working_copy_path config event_id := working_copy f]> (w_fs w))
        = (Exited 0, fs2)
    ∧ is_Some (fs2 !! working_copy_path config event_id)
    ∧ publishes evs = [(gifs_channel config camera, event_id +:+ ".gif")].
Proof.
  intros evs. subst evs.
  unfold source_video_path, working_copy_path, gif_path, gifs_channel.
  unfold_prog.
  step; repeat step; read_events; intros Hpub; try done;
    subst; eexists _, _, _, _; split_and!; eauto using access_readable.
Qed.

Lemma X9_on_message_publish_witness :
  publishes (events_of (on_message Demo.ext_ok Demo.cfg Demo.msg) Demo.w0) ≠ []
  ∧ ∃ fs2, ffmpeg Demo.ext_ok (ffmpeg_argv 480 2 8 "/work/123.mp4" "/work/123.gif")
             (<["/work/123.mp4" := working_copy Demo.clip]> (w_fs Demo.w0))
           = (Exited 0, fs2).
Proof.
  assert (H : publishes (events_of (on_message Demo.ext_ok Demo.cfg Demo.msg) Demo.w0) ≠ [])
    by (vm_compute; discriminate).
  split; [exact H|].
  destruct (X9_on_message_publish_needs_exit_0 Demo.ext_ok Demo.cfg Demo.msg Demo.w0 H)
    as (event_id & camera & f & fs2 & _).
  eexists. reflexivity.
Defined.

(** X10: a failed conversion is not escalated.  When the fetch succeeds and
    [ffmpeg] returns a non-zero exit status (its input still there), the
    handler logs one error and makes no call on the client at all: no
    publish, and no [disconnect()] either.  The working copy is removed, and
    the file system is otherwise the one [ffmpeg] left. *)
Theorem X10_failed_conversion_is_only_logged
    (ext : Externals) (config : Config) (message : Message) (w : World)
    (event_id : string) (camera : Camera) (f : File) (rc : Z)
    (fs2 : gmap string File) :
  let src := source_video_path config camera event_id (w_today w) in
  let dst := working_copy_path config event_id in
  let run := on_message ext config message w in
  let evs := events_of (on_message ext config message) w in
  Py.decode_utf8 (payload message) = Some event_id →
  lookup_camera config (camera_id_of_topic config (topic message)) = Some camera →
  w_fs w !! src = Some f →
  f_readable f = true →
  src ≠ dst →
  ffmpeg ext
    (ffmpeg_argv (scale camera) (skip_first_n_secs camera) (max_length_secs camera)
       dst (gif_path config event_id))
    (<[dst := working_copy f]> (w_fs w)) = (Exited rc, fs2) →
  rc ≠ 0 →
  is_Some (fs2 !! dst) →
  run.1 = Ok tt
  ∧ client_calls evs = []
  ∧ log_errors evs = ["Invalid return code from ffmpeg subprocess call for event id %i"]
  ∧ w_fs run.2 = delete dst fs2.
Proof.
  intros src dst run evs Hdec Hcam Hsrc Hread Hne Htool Hrc [f2 Hf2].
  apply readable_access in Hread.
  subst src dst run evs.
  unfold source_video_path, working_copy_path, gif_path in *.
  unfold_prog. rewrite Hdec, Hcam. world_simpl.
  rewrite Hsrc, bool_decide_false, Hread by done. world_simpl.
  rewrite Htool. world_simpl. rewrite Hf2. world_simpl.
  rewrite bool_decide_false by done. by read_events.
Qed.

Lemma X10_failed_conversion_witness :
  Py.decode_utf8 (payload Demo.msg) = Some "123"
  ∧ client_calls (events_of (on_message Demo.ext_ffmpeg_fails Demo.cfg Demo.msg) Demo.w0) = [].
Proof.
  pose (fs2 := <["/work/123.gif" := Demo.gif]>
                 (<["/work/123.mp4" := working_copy Demo.clip]> (w_fs Demo.w0))).
  assert (Hdec : Py.decode_utf8 (payload Demo.msg) = Some "123")
    by (vm_compute; reflexivity).
  assert (Hcam : lookup_camera Demo.cfg (camera_id_of_topic Demo.cfg (topic Demo.msg))
                 = Some Demo.cam1) by (vm_compute; reflexivity).
  assert (Hsrc : w_fs Demo.w0 !! source_video_path Demo.cfg Demo.cam1 "123" (w_today Demo.w0)
                 = Some Demo.clip) by (vm_compute; reflexivity).
  assert (Hne : source_video_path Demo.cfg Demo.cam1 "123" (w_today Demo.w0)
                ≠ working_copy_path Demo.cfg "123") by (vm_compute; discriminate).
  assert (Hsome : is_Some (fs2 !! working_copy_path Demo.cfg "123"))
    by (vm_compute; eexists; reflexivity).
  assert (Htool : ffmpeg Demo.ext_ffmpeg_fails
      (ffmpeg_argv (scale Demo.cam1) (skip_first_n_secs Demo.cam1)
         (max_length_secs Demo.cam1) (working_copy_path Demo.cfg "123")
         (gif_path Demo.cfg "123"))
      (<[working_copy_path Demo.cfg "123" := working_copy Demo.clip]> (w_fs Demo.w0))
      = (Exited 1, fs2)) by reflexivity.
  assert (H10 : (1 : Z) ≠ 0) by discriminate.
  split; [exact Hdec|].
  exact (proj1 (proj2 (X10_failed_conversion_is_only_logged Demo.ext_ffmpeg_fails
           Demo.cfg Demo.msg Demo.w0 "123" Demo.cam1 Demo.clip 1 fs2
           Hdec Hcam Hsrc eq_refl Hne Htool H10 Hsome))).
Defined.

(** X11: when [ffmpeg] cannot be started, the working copy is left behind.
    The fetch having succeeded, [subprocess.call] raises before the removal
    is reached: the file operations are the copy and the call only, the file
    system after the handler is the one before it plus the working copy,
    nothing is published, and the handler escalates. *)
Theorem X11_spawn_failure_leaves_working_copy
    (ext : Externals) (config : Config) (message : Message) (w : World)
    (event_id : string) (camera : Camera) (f : File) (fs2 : gmap string File) :
  let src := source_video_path config camera event_id (w_today w) in
  let dst := working_copy_path config event_id in
  let argv := ffmpeg_argv (scale camera) (skip_first_n_secs camera)
                (max_length_secs camera) dst (gif_path config event_id) in
  let run := on_message ext config message w in
  let evs := events_of (on_message ext config message) w in
  Py.decode_utf8 (payload message) = Some event_id →
  lookup_camera config (camera_id_of_topic config (topic message)) = Some camera →
  w_fs w !! src = Some f →
  f_readable f = true →
  src ≠ dst →
  ffmpeg ext argv (<[dst := working_copy f]> (w_fs w)) = (SpawnError, fs2) →
  run.1 = Ok tt
  ∧ file_ops evs = [EvCopy src dst; EvExec argv]
  ∧ w_fs run.2 = <[dst := working_copy f]> (w_fs w)
  ∧ publishes evs = []
  ∧ escalated evs.
Proof.
  intros src dst argv run evs Hdec Hcam Hsrc Hread Hne Htool.
  apply readable_access in Hread.
  subst src dst argv run evs.
  unfold source_video_path, working_copy_path, gif_path in *.
  unfold_prog. rewrite Hdec, Hcam. world_simpl.
  rewrite Hsrc, bool_decide_false, Hread by done. world_simpl.
  rewrite Htool. world_simpl.
  step; read_events; (split_and!; try done; show_escalated).
Qed.

Lemma X11_spawn_failure_witness :
  Py.decode_utf8 (payload Demo.msg) = Some "123"
  ∧ w_fs (on_message Demo.ext_no_ffmpeg Demo.cfg Demo.msg Demo.w0).2
      = <["/work/123.mp4" := working_copy Demo.clip]> (w_fs Demo.w0).
Proof.
  assert (Hdec : Py.decode_utf8 (payload Demo.msg) = Some "123")
    by (vm_compute; reflexivity).
  assert (Hcam : lookup_camera Demo.cfg (camera_id_of_topic Demo.cfg (topic Demo.msg))
                 = Some Demo.cam1) by (vm_compute; reflexivity).
  assert (Hsrc : w_fs Demo.w0 !! source_video_path Demo.cfg Demo.cam1 "123" (w_today Demo.w0)
                 = Some Demo.clip) by (vm_compute; reflexivity).
  assert (Hne : source_video_path Demo.cfg Demo.cam1 "123" (w_today Demo.w0)
                ≠ working_copy_path Demo.cfg "123") by (vm_compute; discriminate).
  split; [exact Hdec|].
  exact (proj1 (proj2 (proj2 (X11_spawn_failure_leaves_working_copy Demo.ext_no_ffmpeg
           Demo.cfg Demo.msg Demo.w0 "123" Demo.cam1 Demo.clip
           (<["/work/123.mp4" := working_copy Demo.clip]> (w_fs Demo.w0))
           Hdec Hcam Hsrc eq_refl Hne eq_refl)))).
Defined.

(** X12: a publish that raises is handled inside [publish_gif], not by the
    [except] clause of [on_message].  In every run whose publish call
    raised, the calls on the client are that publish and one [disconnect],
    the line "on message exception" is not logged, and the handler logs
    the publish exception and then the invalid return code of the publish. *)
Theorem X12_raising_publish_disconnects_once
    (ext : Externals) (config : Config) (message : Message) (w : World) :
  let evs := events_of (on_message ext config message) w in
  (∃ channel body, EvClient (Publish channel body) Raised ∈ evs) →
  (∃ channel body r,
     client_calls evs = [(Publish channel body, Raised); (Disconnect, r)]
     ∧ log_errors evs =
         "publish exception"
         :: match r with
            | Raised => ["disconnect exception"]
            | Returned _ => []
            end
         ++ ["Invalid return code from mqtt publish for event id %i camera topic %s"])
  ∧ ¬ escalated evs.
Proof.
  intros evs. subst evs. unfold_prog.
  step; repeat step; read_events; intros (channel & body & Hin);
    try refute_elem Hin;
    (split;
      [ eexists _, _, _; split; reflexivity
      | intros [r [pre Hpre]];
        apply (f_equal (@rev Event)) in Hpre; rewrite rev_app_distr in Hpre;
        destruct r; simpl in Hpre; discriminate Hpre ]).
Qed.

Lemma X12_raising_publish_witness :
  (∃ channel body, EvClient (Publish channel body) Raised
     ∈ events_of (on_message Demo.ext_publish_raises Demo.cfg Demo.msg) Demo.w0)
  ∧ ¬ escalated (events_of (on_message Demo.ext_publish_raises Demo.cfg Demo.msg) Demo.w0).
Proof.
  assert (H : ∃ channel body, EvClient (Publish channel body) Raised
     ∈ events_of (on_message Demo.ext_publish_raises Demo.cfg Demo.msg) Demo.w0).
  { exists "zm/gifs/cam1", "123.gif". vm_compute. find_elem. }
  split; [exact H|].
  exact (proj2 (X12_raising_publish_disconnects_once Demo.ext_publish_raises
                  Demo.cfg Demo.msg Demo.w0 H)).
Defined.

(** ** Cameras and their channels *)

(** X13: [lookup_camera] returns the first camera of the configuration with
    the identifier: every camera before it has another identifier, so among
    cameras sharing an identifier only the first is ever used.  And it finds
    a camera whenever some camera has the identifier. *)
Theorem X13_lookup_camera_first_match (config : Config) (camera_id : string) :
  (∀ camera, lookup_camera config camera_id = Some camera →
     ∃ before after,
       zoneminder_cameras config = before ++ camera :: after
       ∧ cam_id camera = camera_id
       ∧ Forall (λ c, cam_id c ≠ camera_id) before)
  ∧ (∀ camera, camera ∈ zoneminder_cameras config → cam_id camera = camera_id →
       ∃ first, lookup_camera config camera_id = Some first ∧ cam_id first = camera_id).
Proof.
  unfold lookup_camera. split.
  - induction (zoneminder_cameras config) as [|c l IH]; intros camera Hfind; [done|].
    cbn [List.find] in Hfind. case_bool_decide as Hc.
    + injection Hfind as <-. exists [], l. split_and!; [done|done|constructor].
    + destruct (IH camera Hfind) as (before & after & -> & Hid & Hall).
      exists (c :: before), after. split_and!; [done|done|by constructor].
  - induction (zoneminder_cameras config) as [|c l IH]; intros camera Hin Hid.
    + by apply elem_of_nil in Hin.
    + cbn [List.find]. case_bool_decide as Hc; [by exists c|].
      apply elem_of_cons in Hin as [->|Hin]; [done|]. by apply (IH camera).
Qed.

Lemma X13_lookup_camera_witness :
  lookup_camera Demo.cfg "cam2" = Some Demo.cam2
  ∧ ∃ before after,
      zoneminder_cameras Demo.cfg = before ++ Demo.cam2 :: after
      ∧ cam_id Demo.cam2 = "cam2"
      ∧ Forall (λ c, cam_id c ≠ "cam2") before.
Proof.
  assert (H : lookup_camera Demo.cfg "cam2" = Some Demo.cam2) by reflexivity.
  split; [exact H|].
  exact (proj1 (X13_lookup_camera_first_match Demo.cfg "cam2") Demo.cam2 H).
Defined.

(** A configured camera is found by its own identifier, up to cameras
    sharing it. *)
Lemma lookup_camera_of_member config camera :
  camera ∈ zoneminder_cameras config →
  ∃ first, lookup_camera config (cam_id camera) = Some first
           ∧ cam_id first = cam_id camera.
Proof.
  unfold lookup_camera.
  induction (zoneminder_cameras config) as [|c l IH]; intros Hin.
  - by apply elem_of_nil in Hin.
  - cbn [List.find]. case_bool_decide as Hc; [by exists c|].
    apply elem_of_cons in Hin as [->|Hin]; [done|]. by apply IH.
Qed.

(** X14: the channel [on_connect] subscribes to for a configured camera
    leads back to that camera.  For a camera whose identifier has no slash,
    a message on [<mqtt_base_events_topic>/<camera id>] gives the identifier
    of the camera, and the lookup finds a camera with that identifier. *)
Theorem X14_subscribed_channel_finds_camera (config : Config) (camera : Camera) :
  camera ∈ zoneminder_cameras config →
  has_char "/" (cam_id camera) = false →
  camera_id_of_topic config (events_channel config camera) = cam_id camera
  ∧ ∃ found,
      lookup_camera config (camera_id_of_topic config (events_channel config camera))
        = Some found
      ∧ cam_id found = cam_id camera.
Proof.
  intros Hin Hid. destruct (camera_id_round_trip config camera Hid) as [Hrt _].
  split; [done|]. rewrite Hrt. by apply lookup_camera_of_member.
Qed.

Lemma X14_subscribed_channel_witness :
  Demo.cam1 ∈ zoneminder_cameras Demo.cfg
  ∧ has_char "/" (cam_id Demo.cam1) = false
  ∧ camera_id_of_topic Demo.cfg (events_channel Demo.cfg Demo.cam1) = "cam1".
Proof.
  assert (Hin : Demo.cam1 ∈ zoneminder_cameras Demo.cfg) by apply list_elem_of_here.
  split; [exact Hin|]. split; [reflexivity|].
  exact (proj1 (X14_subscribed_channel_finds_camera Demo.cfg Demo.cam1 Hin eq_refl)).
Defined.

(** ** The seek offset *)

(** X16: for a profile whose [skip_first_n_secs] is below one minute, the
    argument after [-ss] is that number of seconds written as [HH:MM:SS],
    whatever the other parameters. *)
Theorem X16_seek_offset_is_a_timestamp_below_a_minute
    (scale skip maxlen : Z) (input output : string) :
  0 ≤ skip < 60 →
  ffmpeg_argv scale skip maxlen input output !! 6%nat = Some "-ss"
  ∧ ffmpeg_argv scale skip maxlen input output !! 7%nat = Some (spec_hhmmss skip).
Proof.
  intros Hskip. split; [done|].
  unfold ffmpeg_argv. cbn [lookup list_lookup]. f_equal.
  by apply seek_offset_below_a_minute.
Qed.

Lemma X16_seek_offset_witness :
  0 ≤ 59 < 60
  ∧ ffmpeg_argv 480 59 8 "/work/1.mp4" "/work/1.gif" !! 7%nat = Some "00:00:59".
Proof.
  assert (H : 0 ≤ 59 < 60) by lia.
  split; [exact H|].
  exact (proj2 (X16_seek_offset_is_a_timestamp_below_a_minute 480 59 8
                  "/work/1.mp4" "/work/1.gif" H)).
Defined.

Lemma X17_one_argument_per_parameter_witness :
  (320 : Z) ≠ 480
  ∧ ffmpeg_argv 320 2 8 "/work/1.mp4" "/work/1.gif" !! 5%nat
      ≠ ffmpeg_argv 480 2 8 "/work/1.mp4" "/work/1.gif" !! 5%nat
  ∧ ffmpeg_argv 320 2 8 "/work/1.mp4" "/work/1.gif" !! 7%nat
      = ffmpeg_argv 480 2 8 "/work/1.mp4" "/work/1.gif" !! 7%nat.
Proof.
  assert (H : (320 : Z) ≠ 480) by discriminate.
  assert (H7 : (7 ≠ 5)%nat) by discriminate.
  destruct (ffmpeg_argv_one_argument_per_parameter 480 320 2 2 8 8
              "/work/1.mp4" "/work/1.gif") as (Hsame & Hdiff & _).
  split; [exact H|]. split; [exact (Hdiff H) | exact (Hsame 7%nat H7)].
Defined.

(** ** A failed subscription is retried *)

(** No subscribe of a loop that went through has raised. *)
Lemma subscribed_none_raised config l evs channel :
  subscribed config l evs → EvClient (Subscribe channel) Raised ∉ evs.
Proof.
  induction 1 as [|camera rc l evs _ IH]; intros Hin.
  - by apply elem_of_nil in Hin.
  - apply elem_of_cons in Hin as [Hin|Hin]; [discriminate|].
    apply elem_of_cons in Hin as [Hin|Hin]; [discriminate|]. by apply IH.
Qed.

(** What [on_connect] leaves: the flag set when every subscribe returned,
    the flag untouched when one raised. *)
Lemma on_connect_flag ext config rc w :
  ((∃ channel, EvClient (Subscribe channel) Raised ∈ events_of (on_connect ext config rc) w)
   ∧ sub_connected (on_connect ext config rc w).2 = sub_connected w)
  ∨ ((∀ channel, EvClient (Subscribe channel) Raised ∉ events_of (on_connect ext config rc) w)
     ∧ sub_connected (on_connect ext config rc w).2 = true).
Proof.
  unfold events_of. rewrite on_connect_unfold.
  set (w0 := with_event (EvLog INFO "connected to mqtt_server %s  mqtt_port %i") w).
  destruct (subscribe_loop ext config (zoneminder_cameras config) w0)
    as [(pre & Hok & Hsub & Hev)
       |(done & camera & rest & pre & Hraise & Hcams & Hsub & Hev)];
    cbv zeta in *;
    match goal with
    | |- context [for_each ?l ?body w0] => destruct (for_each l body w0) as [r1 w1]
    end; cbn [fst snd] in *; subst r1;
    destruct Hev as (Ht & Hf & Hd & Hc).
  - right. world_simpl. rewrite Ht. subst w0. world_simpl. trace_norm.
    rewrite drop_app_length. split; [|done]. intros channel Hin.
    apply elem_of_cons in Hin as [Hin|Hin]; [discriminate|].
    apply elem_of_app in Hin as [Hin|Hin]; [|refute_elem Hin].
    by apply (subscribed_none_raised _ _ _ _ Hsub) in Hin.
  - left. destruct (escalation_run ext "on_connect exception" w1)
      as (r & Hok & Ht' & Hf' & Hd' & Hc').
    cbv zeta in *. rewrite Ht', Hc', Ht, Hc. subst w0. world_simpl.
    trace_norm. rewrite drop_app_length. split; [|done].
    exists (events_channel config camera).
    apply list_elem_of_further, elem_of_app. right.
    apply list_elem_of_further, list_elem_of_here.
Qed.

(** X18: a subscription that fails is retried from scratch.  Started with
    the flag cleared, [on_connect] leaves it cleared when a subscribe raised,
    and the following turns of the loop of [main] call [connect()] again,
    once per turn; when no subscribe raised, the flag is set and the
    following turns only sleep. *)
Theorem X18_failed_subscription_is_retried
    (ext : Externals) (config : Config) (rc : Z) (turns : nat) (w : World) :
  sub_connected w = false →
  let evs := events_of (on_connect ext config rc) w in
  let after := (on_connect ext config rc w).2 in
  ((∃ channel, EvClient (Subscribe channel) Raised ∈ evs) →
     sub_connected after = false
     ∧ connect_asyncs (events_of (main_loop ext config turns) after)
         = replicate turns (mqtt_server config, mqtt_port config))
  ∧ ((∀ channel, EvClient (Subscribe channel) Raised ∉ evs) →
     sub_connected after = true
     ∧ events_of (main_loop ext config turns) after = replicate turns (EvSleep 10)).
Proof.
  intros Hc evs after. subst evs after.
  destruct (on_connect_flag ext config rc w) as [[[ch Hin] Hflag]|[Hnone Hflag]].
  - rewrite Hc in Hflag. split.
    + intros _. split; [done|].
      destruct (main_loop_reconnecting ext config turns _ Hflag)
        as (evs' & _ & (Ht & _) & Hca & _).
      by rewrite (events_of_ext _ _ _ Ht).
    + intros Hno. by destruct (Hno ch).
  - split.
    + intros [ch Hin]. by destruct (Hnone ch).
    + intros _. split; [done|]. apply events_of_ext.
      by destruct (main_loop_idle ext config turns _ Hflag) as (_ & Ht & _).
Qed.

Lemma X18_failed_subscription_witness :
  sub_connected Demo.w0 = false
  ∧ (∃ channel, EvClient (Subscribe channel) Raised
       ∈ events_of (on_connect Demo.ext_subscribe_raises Demo.cfg 0) Demo.w0)
  ∧ connect_asyncs (events_of (main_loop Demo.ext_subscribe_raises Demo.cfg 2)
                      (on_connect Demo.ext_subscribe_raises Demo.cfg 0 Demo.w0).2)
      = [("broker", 1883); ("broker", 1883)].
Proof.
  assert (H : ∃ channel, EvClient (Subscribe channel) Raised
       ∈ events_of (on_connect Demo.ext_subscribe_raises Demo.cfg 0) Demo.w0).
  { exists "zm/events/cam2". vm_compute. find_elem. }
  split; [reflexivity|]. split; [exact H|].
  exact (proj2 (proj1 (X18_failed_subscription_is_retried Demo.ext_subscribe_raises
                         Demo.cfg 0 2 Demo.w0 eq_refl) H)).
Defined.
